(** * task-glitch: the task store of [src/hooks/useTasks.ts]

    A shallow embedding of the state hook [useTasks]: the load-time
    normalizer and sanitizer, the derived metrics, and the four store
    operations [addTask], [updateTask], [deleteTask] and [undoDelete].

    Conventions of the embedding.
    - A JavaScript [number] is an IEEE 754 binary64 value, so it is a
      primitive [float]; [<=] and [>] are [PrimFloat.leb] and
      [PrimFloat.ltb], which are false on NaN exactly as in JavaScript.
    - A JavaScript string is a [string]; [===] on strings is [String.eqb].
    - An optional field ([notes?], [completedAt?]) is an [option]; [None]
      is [undefined].
    - React state is passed explicitly: an operation maps the state of the
      last render to the state of the next one.  The updater given to
      [setTasks] runs on the current list, and the [setLastDeleted] call
      made inside it takes effect in the same render.
    - Values read from the platform (the clock, [crypto.randomUUID],
      [Math.random]) are arguments of the operation that reads them. *)

From Stdlib Require Import PrimFloat.
From stdpp Require Import gmap strings list pretty.

Local Open Scope string_scope.
Local Open Scope list_scope.

(** ** Enumerations of [@/types] *)

Inductive Priority := High | Medium | Low.
Inductive Status := Todo | InProgress | Done.

Definition is_Done (s : Status) : bool :=
  match s with Done => true | _ => false end.

(** ** Task records *)

Module Task.
Record t := mk {
    id : string;
    title : string;
    revenue : float;
    timeTaken : float;
    priority : Priority;
    status : Status;
    notes : option string;
    createdAt : string;
    completedAt : option string
  }.

Definition set_timeTaken (x : float) (a : t) : t :=
    mk (id a) (title a) (revenue a) x (priority a) (status a) (notes a)
       (createdAt a) (completedAt a).

Definition set_completedAt (c : option string) (a : t) : t :=
    mk (id a) (title a) (revenue a) (timeTaken a) (priority a) (status a)
       (notes a) (createdAt a) c.
End Task.

(** [Omit<Task, 'id'> & { id?: string }], the argument of [addTask].  The
    spec's example passes a record without [createdAt], so that field is
    optional here as it is at run time. *)
Module NewTask.
Record t := mk {
    id : option string;
    title : string;
    revenue : float;
    timeTaken : float;
    priority : Priority;
    status : Status;
    notes : option string;
    createdAt : option string;
    completedAt : option string
  }.
End NewTask.

(** [Partial<Task>], the argument of [updateTask].  [None] is a key that
    the patch does not have.  For the two optional fields the key can also
    be present with the value [undefined], which is [Some None]; a required
    field set to [undefined] would leave a record that is no [Task] and is
    not modelled. *)
Module Patch.
Record t := mk {
    id : option string;
    title : option string;
    revenue : option float;
    timeTaken : option float;
    priority : option Priority;
    status : option Status;
    notes : option (option string);
    createdAt : option string;
    completedAt : option (option string)
  }.

Definition empty : t := mk None None None None None None None None None.
End Patch.

(** ** The store *)

Record State := mkState {
  tasks : list Task.t;
  loading : bool;
  error : option string;
  lastDeleted : option Task.t
}.

(** [t.id === id] *)
Definition has_id (i : string) (a : Task.t) : bool := String.eqb (Task.id a) i.

(** JavaScript truthiness of a [string | undefined]. *)
Definition truthy_str (o : option string) : bool :=
  match o with
  | None => false
  | Some s => negb (String.eqb s EmptyString)
  end.

(** [{ ...t, ...patch }] *)
Definition merge (a : Task.t) (p : Patch.t) : Task.t :=
  Task.mk (default (Task.id a) (Patch.id p))
          (default (Task.title a) (Patch.title p))
          (default (Task.revenue a) (Patch.revenue p))
          (default (Task.timeTaken a) (Patch.timeTaken p))
          (default (Task.priority a) (Patch.priority p))
          (default (Task.status a) (Patch.status p))
          (default (Task.notes a) (Patch.notes p))
          (default (Task.createdAt a) (Patch.createdAt p))
          (default (Task.completedAt a) (Patch.completedAt p)).

(** The callback of the first [prev.map] of [updateTask]. *)
Definition patch_task (now i : string) (p : Patch.t) (a : Task.t) : Task.t :=
  if negb (has_id i a) then a
  else
    let merged := merge a p in
    if negb (is_Done (Task.status a)) && is_Done (Task.status merged)
       && negb (truthy_str (Task.completedAt merged))
    then Task.set_completedAt (Some now) merged
    else merged.

(** The callback of the second [next.map] of [updateTask]:
    [t.id === id && (patch.timeTaken ?? t.timeTaken) <= 0]. *)
Definition revalidate (i : string) (p : Patch.t) (a : Task.t) : Task.t :=
  if has_id i a && PrimFloat.leb (default (Task.timeTaken a) (Patch.timeTaken p)) 0
  then Task.set_timeTaken 1 a
  else a.

(** [addTask]; [uuid] is what [crypto.randomUUID()] returns when it is
    called, [now] is [new Date().toISOString()]. *)
Definition addTask (uuid now : string) (task : NewTask.t) (st : State) : State :=
  let id := default uuid (NewTask.id task) in
  let timeTaken :=
    if PrimFloat.leb (NewTask.timeTaken task) 0 then 1%float
    else NewTask.timeTaken task in
  let createdAt := now in
  let completedAt := if is_Done (NewTask.status task) then Some createdAt else None in
  mkState
    (tasks st ++
       [Task.mk id (NewTask.title task) (NewTask.revenue task) timeTaken
                (NewTask.priority task) (NewTask.status task)
                (NewTask.notes task) createdAt completedAt])
    (loading st) (error st) (lastDeleted st).

(** [updateTask]; [now] is [new Date().toISOString()], read once for the
    call. *)
Definition updateTask (now i : string) (p : Patch.t) (st : State) : State :=
  let next := map (patch_task now i p) (tasks st) in
  mkState (map (revalidate i p) next) (loading st) (error st) (lastDeleted st).

(** [prev.find(...) || null] is [List.find]: a task object is truthy. *)
Definition deleteTask (i : string) (st : State) : State :=
  let target := List.find (has_id i) (tasks st) in
  mkState (List.filter (fun a => negb (has_id i a)) (tasks st))
          (loading st) (error st) target.

Definition undoDelete (st : State) : State :=
  match lastDeleted st with
  | None => st
  | Some d => mkState (tasks st ++ [d]) (loading st) (error st) None
  end.

(** ** Derived metrics

    The aggregate functions live in [@/utils/logic], which is outside the
    hook; the hook only calls them, so they are an interface here. *)

Record Metrics := mkMetrics {
  totalRevenue : float;
  totalTimeTaken : float;
  timeEfficiencyPct : float;
  revenuePerHour : float;
  averageROI : float;
  performanceGrade : string
}.

Class Logic := {
  computeTotalRevenue : list Task.t → float;
  computeTimeEfficiency : list Task.t → float;
  computeRevenuePerHour : list Task.t → float;
  computeAverageROI : list Task.t → float;
  computePerformanceGrade : float → string
}.

Definition INITIAL_METRICS : Metrics :=
  mkMetrics 0 0 0 0 0 "Needs Improvement".

Definition metrics `{Logic} (ts : list Task.t) : Metrics :=
  if (length ts =? 0)%nat then INITIAL_METRICS
  else
    let totalRevenue := computeTotalRevenue ts in
    let totalTimeTaken := fold_left (fun s a => (s + Task.timeTaken a)%float) ts 0%float in
    let timeEfficiencyPct := computeTimeEfficiency ts in
    let revenuePerHour := computeRevenuePerHour ts in
    let averageROI := computeAverageROI ts in
    let performanceGrade := computePerformanceGrade averageROI in
    mkMetrics totalRevenue totalTimeTaken timeEfficiencyPct revenuePerHour
              averageROI performanceGrade.

(** ** Raw records

    What [res.json()] yields and what the two load-time passes take: a
    value of type [any]. *)

#[local] Set Warnings "-register-all".
Inductive any :=
| JUndefined
| JNull
| JBool (b : bool)
| JNumber (x : float)
| JString (s : string)
| JArray (items : list any)
| JObject (fields : list (string * any)).

Fixpoint assoc (k : string) (fs : list (string * any)) : any :=
  match fs with
  | [] => JUndefined
  | (k', v) :: fs' => if String.eqb k' k then v else assoc k fs'
  end.

(** [t?.k].  None of the nine keys read by the hook exists on a primitive
    or on an array, so only an object can answer with a defined value. *)
Definition opt_get (t : any) (k : string) : any :=
  match t with
  | JObject fs => assoc k fs
  | _ => JUndefined
  end.

(** Exceptions that the load-time passes can raise. *)
Inductive exn := TypeError | RangeError.

Inductive outcome (A : Type) :=
| Returns (a : A)
| Throws (e : exn).
Arguments Returns {A} a.
Arguments Throws {A} e.

#[global] Instance outcome_bind : MBind outcome := λ A B k m,
  match m with
  | Returns a => k a
  | Throws e => Throws e
  end.

(** [t.k]: a [TypeError] on [null] and [undefined]. *)
Definition get (t : any) (k : string) : outcome any :=
  match t with
  | JUndefined | JNull => Throws TypeError
  | _ => Returns (opt_get t k)
  end.

(** [ToBoolean] *)
Definition truthy (v : any) : bool :=
  match v with
  | JUndefined | JNull => false
  | JBool b => b
  | JNumber x => negb (PrimFloat.eqb x 0 || is_nan x)
  | JString s => negb (String.eqb s EmptyString)
  | JArray _ | JObject _ => true
  end.

(** [v === s] for a string literal [s] *)
Definition is_str (s : string) (v : any) : bool :=
  match v with
  | JString s' => String.eqb s' s
  | _ => false
  end.

(** ** The platform

    The built-ins whose result the source does not determine.  Calls made
    while the [idx]-th record is processed are indexed by [idx]; each call
    site runs at most once per record. *)

Class Host := {
  (** [StringToNumber], the numeric value of a string *)
  StringToNumber : string → float;
  (** the string that [ToPrimitive] gives for an array or an object *)
  ObjectToString : any → string;
  (** [new Date(v)] for a truthy [v]: its time value in milliseconds, or
      [None] for an Invalid Date *)
  Date_of : any → option Z;
  (** [Date.prototype.toISOString] on a valid time value *)
  toISOString : Z → string;
  (** [String.prototype.trim] *)
  trim : string → string;
  (** [crypto?.randomUUID?.()] where the sanitizer picks an id for a record
      that has none; [None] is [undefined] *)
  uuid_for_missing : nat → option string;
  (** [crypto?.randomUUID?.()] where the sanitizer replaces a duplicate *)
  uuid_for_duplicate : nat → option string;
  (** [Date.now()] inside the sanitizer's fallback id *)
  Date_now : nat → Z;
  (** the time value of [new Date()] in the sanitizer *)
  clock : nat → Z;
  (** [Math.random().toString(36).slice(2, 8)] *)
  random36 : nat → string
}.

Section Load.
Context `{Host}.

(** [Number(v)] *)
Definition Number (v : any) : float :=
  match v with
  | JUndefined => nan
  | JNull => 0
  | JBool b => if b then 1 else 0
  | JNumber x => x
  | JString s => StringToNumber s
  | JArray _ | JObject _ => StringToNumber (ObjectToString v)
  end.

Definition day_ms : Z := 24 * 3600 * 1000.

(** [TimeClip]: a time value beyond 8.64e15 ms makes an Invalid Date. *)
Definition TimeClip (z : Z) : option Z :=
  if (Z.abs z <=? 8640000000000000)%Z then Some z else None.

(** [d.toISOString()], a [RangeError] on an Invalid Date *)
Definition iso (d : option Z) : outcome string :=
  match d with
  | Some z => Returns (toISOString z)
  | None => Throws RangeError
  end.

(** The callback of [normalizeTasks]; [now] is the [Date.now()] read once
    before the loop. *)
Definition normalize_one (now : Z) (idx : nat) (t : any) : outcome any :=
  t_createdAt ← get t "createdAt" ;
  let created :=
    if truthy t_createdAt then Date_of t_createdAt
    else TimeClip (now - (Z.of_nat idx + 1) * day_ms)%Z in
  completed ←
    (if truthy (opt_get t "completedAt") then Returns (opt_get t "completedAt")
     else if is_str "Done" (opt_get t "status")
     then s ← iso (c ← created; TimeClip (c + day_ms)%Z) ; Returns (JString s)
     else Returns JUndefined) ;
  created_iso ← iso created ;
  Returns (JObject
    [("id", opt_get t "id");
     ("title", opt_get t "title");
     ("revenue", JNumber (Number (opt_get t "revenue")));
     ("timeTaken",
       JNumber (if PrimFloat.ltb 0 (Number (opt_get t "timeTaken"))
                then Number (opt_get t "timeTaken") else 1));
     ("priority", opt_get t "priority");
     ("status", opt_get t "status");
     ("notes", opt_get t "notes");
     ("createdAt", JString created_iso);
     ("completedAt", completed)]).

Fixpoint normalize_from (now : Z) (idx : nat) (l : list any) : outcome (list any) :=
  match l with
  | [] => Returns []
  | t :: l' =>
      r ← normalize_one now idx t ;
      rs ← normalize_from now (S idx) l' ;
      Returns (r :: rs)
  end.

(** [Array.isArray(input) ? input : []] *)
Definition as_array (input : any) : list any :=
  match input with
  | JArray l => l
  | _ => []
  end.

Definition normalizeTasks (now : Z) (input : any) : outcome (list any) :=
  normalize_from now 0 (as_array input).

(** The id of line 66 before de-duplication. *)
Definition candidate_id (idx : nat) (t : any) : string :=
  match opt_get t "id" with
  | JString s =>
      if negb (String.eqb s EmptyString) then s
      else default ("task-" +:+ pretty (Date_now idx) +:+ "-" +:+ pretty idx)
                   (uuid_for_missing idx)
  | _ => default ("task-" +:+ pretty (Date_now idx) +:+ "-" +:+ pretty idx)
                 (uuid_for_missing idx)
  end.

(** The replacement of line 78. *)
Definition replacement_id (idx : nat) (finalId : string) : string :=
  default (finalId +:+ "-" +:+ random36 idx) (uuid_for_duplicate idx).

Definition final_id (idx : nat) (seen : gset string) (t : any) : string :=
  let id := candidate_id idx t in
  if decide (id ∈ seen) then replacement_id idx id else id.

Definition sanitize_title (idx : nat) (t : any) : string :=
  match opt_get t "title" with
  | JString s =>
      if negb (String.eqb (trim s) EmptyString) then trim s
      else "Untitled " +:+ pretty (idx + 1)
  | _ => "Untitled " +:+ pretty (idx + 1)
  end.

Definition sanitize_priority (t : any) : Priority :=
  match opt_get t "priority" with
  | JString "High" => High
  | JString "Low" => Low
  | _ => Medium
  end.

Definition sanitize_status (t : any) : Status :=
  match opt_get t "status" with
  | JString "In Progress" => InProgress
  | JString "Done" => Done
  | _ => Todo
  end.

Definition sanitize_notes (t : any) : option string :=
  match opt_get t "notes" with
  | JString s => if negb (String.eqb (trim s) EmptyString) then Some (trim s) else None
  | _ => None
  end.

(** The callback of [sanitizeTasks].  A plain access [t.k] is only reached
    after [t?.k] gave a defined value, so it reads the same value and cannot
    raise; [seen] is the set that the callback closes over. *)
Definition sanitize_one (idx : nat) (seen : gset string) (t : any)
  : outcome (Task.t * gset string) :=
  let id := candidate_id idx t in
  let title := sanitize_title idx t in
  let revenue :=
    if is_finite (Number (opt_get t "revenue")) then Number (opt_get t "revenue")
    else 0%float in
  let timeTaken :=
    if PrimFloat.ltb 0 (Number (opt_get t "timeTaken"))
    then Number (opt_get t "timeTaken") else 1%float in
  let priority := sanitize_priority t in
  let status := sanitize_status t in
  let notes := sanitize_notes t in
  createdAt ←
    (if truthy (opt_get t "createdAt") then iso (Date_of (opt_get t "createdAt"))
     else Returns (toISOString (clock idx))) ;
  completedAt ←
    (if truthy (opt_get t "completedAt")
     then s ← iso (Date_of (opt_get t "completedAt")) ; Returns (Some s)
     else if is_Done status
     then s ← iso (Date_of (JString createdAt)) ; Returns (Some s)
     else Returns None) ;
  let finalId := if decide (id ∈ seen) then replacement_id idx id else id in
  Returns (Task.mk finalId title revenue timeTaken priority status notes
                   createdAt completedAt,
           {[finalId]} ∪ seen).

Fixpoint sanitize_from (idx : nat) (seen : gset string) (l : list any)
  : outcome (list Task.t) :=
  match l with
  | [] => Returns []
  | t :: l' =>
      r ← sanitize_one idx seen t ;
      rs ← sanitize_from (S idx) r.2 l' ;
      Returns (r.1 :: rs)
  end.

Definition sanitizeTasks (input : any) : outcome (list Task.t) :=
  sanitize_from 0 ∅ (as_array input).

(** Every replacement drawn on line 78 is an id that is not in [seen] at
    that moment.  The source does not test this. *)
Fixpoint replacements_fresh (idx : nat) (seen : gset string) (l : list any) : bool :=
  match l with
  | [] => true
  | t :: l' =>
      let id := candidate_id idx t in
      (if decide (id ∈ seen)
       then bool_decide (replacement_id idx id ∉ seen) else true)
      && replacements_fresh (S idx) ({[final_id idx seen t]} ∪ seen) l'
  end.

(** The dates that the callback renders are valid: it raises nothing. *)
Definition dates_valid (idx : nat) (t : any) : bool :=
  match (if truthy (opt_get t "createdAt") then Date_of (opt_get t "createdAt")
         else Some (clock idx)) with
  | None => false
  | Some c =>
      if truthy (opt_get t "completedAt")
      then bool_decide (is_Some (Date_of (opt_get t "completedAt")))
      else if is_Done (sanitize_status t)
      then bool_decide (is_Some (Date_of (JString (toISOString c))))
      else true
  end.

Fixpoint all_dates_valid (idx : nat) (l : list any) : bool :=
  match l with
  | [] => true
  | t :: l' => dates_valid idx t && all_dates_valid (S idx) l'
  end.

End Load.

(** ** Example states *)

Definition demo_task (i : string) (s : Status) (c : option string) : Task.t :=
  Task.mk i "Call client" 100 2 High s None "2023-11-14T22:13:20.000Z" c.

Definition st_cached : State :=
  mkState [demo_task "t1" Todo None] false None (Some (demo_task "t0" Todo None)).

Definition st_two : State :=
  mkState [demo_task "t1" Todo None; demo_task "t2" InProgress None] false None None.

Definition patch_status (s : Status) : Patch.t :=
  Patch.mk None None None None None (Some s) None None None.

Definition patch_done : Patch.t := patch_status Done.

(** A task that was added as Done and then reopened. *)
Definition st_reopened : State :=
  updateTask "2023-11-16T08:00:00.000Z" "t1" (patch_status Todo)
    (addTask "6f1c0a52-3b7e-4c1d-9a50-2f4e8d7b9c11" "2023-11-15T22:13:20.000Z"
       (NewTask.mk (Some "t1") "Call client" 100 2 High Done None None None)
       (mkState [] false None None)).

Definition patch_rename (j : string) : Patch.t :=
  Patch.mk (Some j) None None None None None None None None.

Definition patch_rename_zero (j : string) : Patch.t :=
  Patch.mk (Some j) None None (Some 0%float) None None None None None.

Definition patch_zero : Patch.t :=
  Patch.mk None None None (Some 0%float) None None None None None.

Definition patch_createdAt (c : string) : Patch.t :=
  Patch.mk None None None None None None None (Some c) None.

(** A second task stored under the id of the first: [addTask] takes a
    supplied id as it is. *)
Definition task_again : Task.t :=
  Task.mk "t1" "Again" 1 1 Low Todo None "2024-01-01T00:00:00.000Z" None.

Definition st_shared_id : State :=
  addTask "6f1c0a52-3b7e-4c1d-9a50-2f4e8d7b9c11" "2024-01-01T00:00:00.000Z"
    (NewTask.mk (Some "t1") "Again" 1 1 Low Todo None None None) st_two.

Definition call_client : NewTask.t :=
  NewTask.mk None "Call client" 100 0 High Todo None None None.

(** ** An example platform

    [demo_toISOString] prints a time value the way [toISOString] does.
    [demo_Date_of] reads back the three instants of the examples and sends
    every other value to an Invalid Date; the examples pass it nothing else
    that a browser would accept.  The platform has no [crypto.randomUUID],
    as in a page served over plain http, so the sanitizer takes its
    fallbacks. *)

Fixpoint zeros (n : nat) : string :=
  match n with
  | O => EmptyString
  | S k => "0" +:+ zeros k
  end.

Definition pad (w : nat) (z : Z) : string :=
  let s := pretty z in zeros (w - String.length s) +:+ s.

Definition civil_from_days (days : Z) : Z * Z * Z :=
  let z := (days + 719468)%Z in
  let era := (z / 146097)%Z in
  let doe := (z - era * 146097)%Z in
  let yoe := ((doe - doe / 1460 + doe / 36524 - doe / 146096) / 365)%Z in
  let doy := (doe - (365 * yoe + yoe / 4 - yoe / 100))%Z in
  let mp := ((5 * doy + 2) / 153)%Z in
  let d := (doy - (153 * mp + 2) / 5 + 1)%Z in
  let m := (if mp <? 10 then mp + 3 else mp - 9)%Z in
  let y := (yoe + era * 400 + (if m <=? 2 then 1 else 0))%Z in
  (y, m, d).

Definition demo_toISOString (t : Z) : string :=
  let '(y, m, d) := civil_from_days (t / 86400000) in
  let ms := (t mod 86400000)%Z in
  let year :=
    if ((0 <=? y) && (y <=? 9999))%Z then pad 4 y
    else (if (y <? 0)%Z then "-" else "+") +:+ pad 6 (Z.abs y) in
  year +:+ "-" +:+ pad 2 m +:+ "-" +:+ pad 2 d +:+ "T" +:+
  pad 2 (ms / 3600000) +:+ ":" +:+ pad 2 (ms / 60000 mod 60) +:+ ":" +:+
  pad 2 (ms / 1000 mod 60) +:+ "." +:+ pad 3 (ms mod 1000) +:+ "Z".

Definition demo_instants : list Z :=
  [1700000000000; 1700086400000; 951782400000]%Z.

Definition demo_Date_of (v : any) : option Z :=
  match v with
  | JString s => List.find (fun z => String.eqb (demo_toISOString z) s) demo_instants
  | _ => None
  end.

Definition demo_host : Host := {|
  StringToNumber := fun _ => nan;
  ObjectToString := fun _ => "[object Object]";
  Date_of := demo_Date_of;
  toISOString := demo_toISOString;
  trim := fun s => s;
  uuid_for_missing := fun _ => None;
  uuid_for_duplicate := fun _ => None;
  Date_now := fun _ => 1700000000000%Z;
  clock := fun _ => 1700000000000%Z;
  random36 := fun _ => "k3j2x9"
|}.

Definition raw_id (i : string) : any := JObject [("id", JString i)].

(** Three records, the third repeating the id of the first. *)
Definition raw_repeat : any := JArray [raw_id "a"; raw_id "b"; raw_id "a"].

(** The same, with the second id equal to the replacement that the third
    record will draw. *)
Definition raw_clash : any := JArray [raw_id "a"; raw_id "a-k3j2x9"; raw_id "a"].

Definition raw_bad_date : any :=
  JArray [JObject [("id", JString "a"); ("completedAt", JString "soon")]].

Definition raw_done : any :=
  JObject [("id", JString "a"); ("status", JString "Done");
           ("createdAt", JString "2023-11-14T22:13:20.000Z")].

(** What the sanitizer makes of [raw_id i] at position [n - 1] on the
    example platform. *)
Definition sanitized_id (i n : string) : Task.t :=
  Task.mk i ("Untitled " +:+ n) 0 1 Medium Todo None "2023-11-14T22:13:20.000Z" None.

(** ** Predicates used in the statements *)

Definition absent (i : string) (st : State) : Prop :=
  ∀ a, In a (tasks st) → Task.id a ≠ i.

Definition unique_ids (l : list Task.t) : Prop := NoDup (map Task.id l).

(** [timeTaken > 0] *)
Definition positive (a : Task.t) : Prop := PrimFloat.ltb 0 (Task.timeTaken a) = true.

(** What [updateTask] makes of one task: both callbacks in turn. *)
Definition updated (now i : string) (p : Patch.t) (a : Task.t) : Task.t :=
  revalidate i p (patch_task now i p a).

(** Every task record that the store holds, listed or cached for undo. *)
Definition held (st : State) : list Task.t :=
  tasks st ++ option_list (lastDeleted st).

(** ** The initial load

    The effect of [useTasks] and its [load].  [generateSalesTasks] lives in
    [@/utils/seed] and the text of an engine's error messages is not fixed
    by the source, so both are an interface. *)

Class Runtime := {
  (** [e.message] of a [TypeError] or [RangeError] raised by a built-in *)
  exn_message : exn → string;
  (** [generateSalesTasks(n)] *)
  generateSalesTasks : nat → list any
}.

(** What [await res.json()] comes to; [message] is [e?.message] of the
    value it rejects with, [None] when that is nullish. *)
Inductive body :=
| BadJson (message : option string)
| Json (data : any).

(** What [await fetch('/tasks.json')] comes to. *)
Inductive fetched :=
| Rejected (message : option string)
| Responded (ok : bool) (status : Z) (b : body).

Section Effect.
Context `{Host} `{Runtime}.

(** The [try] block of [load] up to [setTasks]: the final data, or
    [e?.message] of what was thrown. *)
Definition load_try (now : Z) (r : fetched) : option string + list Task.t :=
  match r with
  | Rejected m => inl m
  | Responded ok status b =>
      if negb ok
      then inl (Some ("Failed to load tasks.json (" +:+ pretty status +:+ ")"))
      else
        match b with
        | BadJson m => inl m
        | Json data =>
            match normalizeTasks now data with
            | Throws e => inl (Some (exn_message e))
            | Returns normalized =>
                let fallback := generateSalesTasks 50 in
                match sanitizeTasks
                        (JArray (if (0 <? length normalized)%nat
                                 then normalized else fallback)) with
                | Throws e => inl (Some (exn_message e))
                | Returns finalData => inr finalData
                end
            end
        end
  end.

(** [load] once the fetch has settled; [isMounted] is the flag of the
    effect run that started it, [now] the [Date.now()] of the normalizer. *)
Definition load (now : Z) (isMounted : bool) (r : fetched) (st : State) : State :=
  if isMounted then
    match load_try now r with
    | inr finalData => mkState finalData false (error st) (lastDeleted st)
    | inl m =>
        mkState (tasks st) false
                (Some (default "Failed to load tasks" m)) (lastDeleted st)
    end
  else st.

(** The calls a component can make on the hook's value. *)
Inductive call :=
| Add (uuid now : string) (task : NewTask.t)
| Update (now i : string) (p : Patch.t)
| Delete (i : string)
| Undo.

Definition run_call (c : call) (st : State) : State :=
  match c with
  | Add uuid now task => addTask uuid now task st
  | Update now i p => updateTask now i p st
  | Delete i => deleteTask i st
  | Undo => undoDelete st
  end.

(** One mounted hook: its state, [fetchedRef.current], and the [isMounted]
    variable of every effect run that got past the guard, oldest first. *)
Record Hook := mkHook {
  store : State;
  fetchedRef : bool;
  mounted : list bool
}.

Inductive event :=
| RunEffect
| Cleanup (k : nat)
| Settle (k : nat) (now : Z) (r : fetched)
| Call (c : call).

(** [RunEffect] is the effect body, [Cleanup k] the function returned by
    the [k]-th guarded run, [Settle k] the rest of that run's [load] after
    its fetch has settled. *)
Definition step (h : Hook) (e : event) : Hook :=
  match e with
  | RunEffect =>
      if fetchedRef h then h
      else mkHook (store h) true (mounted h ++ [true])
  | Cleanup k => mkHook (store h) (fetchedRef h) (<[k := false]> (mounted h))
  | Settle k now r =>
      match mounted h !! k with
      | Some m => mkHook (load now m r (store h)) (fetchedRef h) (mounted h)
      | None => h
      end
  | Call c => mkHook (run_call c (store h)) (fetchedRef h) (mounted h)
  end.

Definition run (h : Hook) (es : list event) : Hook := fold_left step es h.

End Effect.

(** [useState] initial values and [useRef(false)]. *)
Definition initial_state : State := mkState [] true None None.
Definition initial_hook : Hook := mkHook initial_state false [].

Definition demo_runtime : Runtime := {|
  exn_message := fun e =>
    match e with
    | TypeError => "Cannot read properties of null (reading 'createdAt')"
    | RangeError => "Invalid time value"
    end;
  generateSalesTasks := fun n => replicate n (JObject [("title", JString "Seeded")])
|}.

(** The id that a raw record carries: a non-empty string. *)
Definition string_id (t : any) : option string :=
  match opt_get t "id" with
  | JString s => if negb (String.eqb s EmptyString) then Some s else None
  | _ => None
  end.

(** A record that makes the sanitizer render no date of its own. *)
Definition no_dates (t : any) : bool :=
  negb (truthy (opt_get t "createdAt")) &&
  negb (truthy (opt_get t "completedAt")) &&
  negb (is_str "Done" (opt_get t "status")).

Definition nullish (t : any) : bool :=
  match t with
  | JUndefined | JNull => true
  | _ => false
  end.

(** What the sanitizer promises of a task besides its id and duration. *)
Definition well_formed (a : Task.t) : Prop :=
  Task.title a ≠ EmptyString ∧
  is_finite (Task.revenue a) = true ∧
  (∀ s, Task.notes a = Some s → s ≠ EmptyString) ∧
  (Task.status a = Done → is_Some (Task.completedAt a)).

(** What the normalizer makes of a record [t]: an object that copies
    five fields as they are and carries a positive number and two dates. *)
Definition normalized_from (t r : any) : Prop :=
  nullish t = false ∧
  opt_get r "id" = opt_get t "id" ∧
  opt_get r "title" = opt_get t "title" ∧
  opt_get r "priority" = opt_get t "priority" ∧
  opt_get r "status" = opt_get t "status" ∧
  opt_get r "notes" = opt_get t "notes" ∧
  (∃ x, opt_get r "timeTaken" = JNumber x ∧ PrimFloat.ltb 0 x = true) ∧
  (∃ x, opt_get r "revenue" = JNumber x) ∧
  (∃ s, opt_get r "createdAt" = JString s) ∧
  (truthy (opt_get t "completedAt") = true →
   opt_get r "completedAt" = opt_get t "completedAt").

(** ** Examples for the load

    Records and what the two passes make of them on the example platform,
    with [Date.now()] at 2023-11-14T22:13:20.000Z. *)

Definition demo_now : Z := 1700000000000.

Definition raw_pair : any := JArray [raw_id "a"; raw_id "b"].

Definition raw_mixed : any :=
  JArray [JNull; JNumber 5; JString "x"; JObject [("title", JNumber 7)]].

Definition raw_soon : any :=
  JObject [("id", JString "a"); ("createdAt", JString "2023-11-14T22:13:20.000Z");
           ("completedAt", JString "soon")].

Definition normalized_id (i c : string) : any :=
  JObject [("id", JString i); ("title", JUndefined); ("revenue", JNumber nan);
           ("timeTaken", JNumber 1); ("priority", JUndefined);
           ("status", JUndefined); ("notes", JUndefined);
           ("createdAt", JString c); ("completedAt", JUndefined)].

Definition normalized_soon : any :=
  JObject [("id", JString "a"); ("title", JUndefined); ("revenue", JNumber nan);
           ("timeTaken", JNumber 1); ("priority", JUndefined);
           ("status", JUndefined); ("notes", JUndefined);
           ("createdAt", JString "2023-11-14T22:13:20.000Z");
           ("completedAt", JString "soon")].

Definition normalized_done : any :=
  JObject [("id", JString "a"); ("title", JUndefined); ("revenue", JNumber nan);
           ("timeTaken", JNumber 1); ("priority", JUndefined);
           ("status", JString "Done"); ("notes", JUndefined);
           ("createdAt", JString "2023-11-14T22:13:20.000Z");
           ("completedAt", JString "2023-11-15T22:13:20.000Z")].

Definition sanitized_done : Task.t :=
  Task.mk "a" "Untitled 1" 0 1 Medium Done None
          "2023-11-14T22:13:20.000Z" (Some "2023-11-15T22:13:20.000Z").

(** * Properties *)

(** ** Mutations on an unknown id *)

Lemma has_id_true i a : has_id i a = true ↔ Task.id a = i.
Proof. unfold has_id. apply String.eqb_eq. Qed.

Lemma has_id_false i a : has_id i a = false ↔ Task.id a ≠ i.
Proof. unfold has_id. apply String.eqb_neq. Qed.

Lemma map_absent (f : Task.t → Task.t) i l :
  (∀ a, has_id i a = false → f a = a) →
  (∀ a, In a l → Task.id a ≠ i) →
  map f l = l.
Proof.
  intros Hf. induction l as [|a l IH]; intros Hl; simpl; [done|].
  rewrite Hf by (apply has_id_false, Hl; now left).
  f_equal. apply IH. intros b Hb. apply Hl. now right.
Qed.

Lemma filter_absent i l :
  (∀ a, In a l → Task.id a ≠ i) →
  List.filter (fun a => negb (has_id i a)) l = l.
Proof.
  induction l as [|a l IH]; intros Hl; simpl; [done|].
  assert (has_id i a = false) as -> by (apply has_id_false, Hl; now left).
  simpl. f_equal. apply IH. intros b Hb. apply Hl. now right.
Qed.

Lemma find_absent i l :
  (∀ a, In a l → Task.id a ≠ i) → List.find (has_id i) l = None.
Proof.
  induction l as [|a l IH]; intros Hl; simpl; [done|].
  assert (has_id i a = false) as -> by (apply has_id_false, Hl; now left).
  apply IH. intros b Hb. apply Hl. now right.
Qed.

(** C1, as the code has it: on an id that no task carries, [updateTask]
    returns the state it was given, and [deleteTask] returns it with the
    undo candidate reset to [null]; the task list is the same in both cases
    and both are total functions, so no error is signalled. *)
Theorem C1_unknown_id now i p st :
  absent i st →
  updateTask now i p st = st ∧
  deleteTask i st = mkState (tasks st) (loading st) (error st) None.
Proof.
  intros Habs. split.
  - unfold updateTask. destruct st as [l ld e d]; simpl in *. f_equal.
    rewrite (map_absent (patch_task now i p) i l); [|by intros a Ha; unfold patch_task; rewrite Ha|done].
    apply (map_absent _ i); [|done].
    intros a Ha. unfold revalidate. by rewrite Ha.
  - unfold deleteTask. rewrite filter_absent by done. by rewrite find_absent.
Qed.

Lemma C1_unknown_id_witness :
  updateTask "2024-01-01T00:00:00.000Z" "ghost" Patch.empty st_cached = st_cached ∧
  deleteTask "ghost" st_cached = mkState (tasks st_cached) false None None.
Proof.
  apply (C1_unknown_id "2024-01-01T00:00:00.000Z" "ghost" Patch.empty st_cached).
  intros a [<-|[]]. discriminate.
Defined.

(** C1 as the spec words it fails for [deleteTask]: with an undo candidate
    cached, deleting an unknown id changes the state. *)
Lemma C1_delete_unknown_clears_candidate :
  absent "ghost" st_cached ∧ deleteTask "ghost" st_cached ≠ st_cached.
Proof.
  split.
  - intros a [<-|[]]. discriminate.
  - discriminate.
Qed.

(** ** Delete and undo *)

Lemma find_present i l a0 :
  In a0 l → Task.id a0 = i →
  ∃ a, List.find (has_id i) l = Some a ∧ In a l ∧ Task.id a = i.
Proof.
  intros Hin Hid. destruct (List.find (has_id i) l) as [a|] eqn:Hf.
  - apply find_some in Hf as [Ha Hi]. apply has_id_true in Hi. eauto.
  - exfalso. apply (find_none _ _ Hf) in Hin.
    apply has_id_false in Hin. contradiction.
Qed.

Lemma unique_ids_same l a b :
  unique_ids l → In a l → In b l → Task.id a = Task.id b → a = b.
Proof.
  unfold unique_ids. induction l as [|x l IH]; simpl; [done|].
  intros Hnd Ha Hb Hid. apply NoDup_cons in Hnd as [Hx Hnd].
  assert (∀ c, In c l → Task.id c ≠ Task.id x) as Hne.
  { intros c Hc Heq. apply Hx. rewrite <- Heq.
    apply list_elem_of_In, in_map, Hc. }
  destruct Ha as [->|Ha], Hb as [->|Hb]; auto.
  - exfalso. apply (Hne _ Hb). done.
  - exfalso. apply (Hne _ Ha). done.
Qed.

Lemma filter_other i j l a :
  In a l → Task.id a = j → i ≠ j →
  In a (List.filter (fun x => negb (has_id i x)) l).
Proof.
  intros Hin Hid Hne. apply filter_In. split; [done|].
  apply negb_true_iff, has_id_false. congruence.
Qed.

Lemma filter_gone i l x :
  In x (List.filter (fun x => negb (has_id i x)) l) → In x l ∧ Task.id x ≠ i.
Proof.
  intros [Hin Hx]%filter_In. split; [done|].
  by apply has_id_false, negb_true_iff.
Qed.

(** C2, as the code has it: deleting a listed id and undoing leaves the
    list without every task of that id, followed by the first task that
    carried it, every field intact; that is the deleted task when ids are
    pairwise distinct.  After two deletions one undo brings back the record
    of the second id only, and a second undo changes nothing. *)
Theorem C2_delete_then_undo :
  (∀ st i a0, In a0 (tasks st) → Task.id a0 = i →
     ∃ a, List.find (has_id i) (tasks st) = Some a ∧
          In a (tasks st) ∧ Task.id a = i ∧
          (unique_ids (tasks st) → a = a0) ∧
          undoDelete (deleteTask i st) =
            mkState (List.filter (fun x => negb (has_id i x)) (tasks st) ++ [a])
                    (loading st) (error st) None) ∧
  (∀ st i1 i2 a1 a2,
     In a1 (tasks st) → Task.id a1 = i1 →
     In a2 (tasks st) → Task.id a2 = i2 → i1 ≠ i2 →
     ∃ b, In b (tasks st) ∧ Task.id b = i2 ∧
          (unique_ids (tasks st) → b = a2) ∧
          tasks (undoDelete (deleteTask i2 (deleteTask i1 st))) =
            List.filter (fun x => negb (has_id i2 x))
              (List.filter (fun x => negb (has_id i1 x)) (tasks st)) ++ [b] ∧
          (∀ x, In x (tasks (undoDelete (deleteTask i2 (deleteTask i1 st)))) →
                Task.id x ≠ i1) ∧
          undoDelete (undoDelete (deleteTask i2 (deleteTask i1 st))) =
            undoDelete (deleteTask i2 (deleteTask i1 st))).
Proof.
  split.
  - intros st i a0 Hin Hid.
    destruct (find_present i _ _ Hin Hid) as (a & Hf & Ha & Hi).
    exists a. repeat split; try done.
    + intros Hu. apply (unique_ids_same (tasks st)); congruence.
    + unfold undoDelete, deleteTask. simpl. by rewrite Hf.
  - intros st i1 i2 a1 a2 H1 Hi1 H2 Hi2 Hne.
    assert (In a2 (tasks (deleteTask i1 st))) as H2'.
    { simpl. by apply (filter_other i1 i2). }
    destruct (find_present i2 _ _ H2' Hi2) as (b & Hf & Hb & Hi).
    simpl in Hb. apply filter_gone in Hb as [Hb _].
    exists b.
    assert (undoDelete (deleteTask i2 (deleteTask i1 st)) =
            mkState (List.filter (fun x => negb (has_id i2 x))
                       (List.filter (fun x => negb (has_id i1 x)) (tasks st)) ++ [b])
                    (loading st) (error st) None) as ->.
    { unfold undoDelete at 1. simpl lastDeleted. simpl in Hf. by rewrite Hf. }
    repeat split; try done.
    + intros Hu. apply (unique_ids_same (tasks st)); congruence.
    + simpl. intros x [Hx|Hx]%in_app_or.
      * apply filter_gone in Hx as [Hx _]. by apply filter_gone in Hx as [_ Hx].
      * destruct Hx as [<-|[]]. congruence.
Qed.

Lemma C2_delete_then_undo_witness :
  (∃ a, List.find (has_id "t1") (tasks st_two) = Some a ∧
        In a (tasks st_two) ∧ Task.id a = "t1" ∧
        (unique_ids (tasks st_two) → a = demo_task "t1" Todo None) ∧
        undoDelete (deleteTask "t1" st_two) =
          mkState (List.filter (fun x => negb (has_id "t1" x)) (tasks st_two) ++ [a])
                  false None None) ∧
  (∃ b, In b (tasks st_two) ∧ Task.id b = "t2" ∧
        (unique_ids (tasks st_two) → b = demo_task "t2" InProgress None) ∧
        tasks (undoDelete (deleteTask "t2" (deleteTask "t1" st_two))) =
          List.filter (fun x => negb (has_id "t2" x))
            (List.filter (fun x => negb (has_id "t1" x)) (tasks st_two)) ++ [b] ∧
        (∀ x, In x (tasks (undoDelete (deleteTask "t2" (deleteTask "t1" st_two)))) →
              Task.id x ≠ "t1") ∧
        undoDelete (undoDelete (deleteTask "t2" (deleteTask "t1" st_two))) =
          undoDelete (deleteTask "t2" (deleteTask "t1" st_two))).
Proof.
  split.
  - apply (proj1 C2_delete_then_undo st_two "t1" (demo_task "t1" Todo None)).
    + simpl. left. reflexivity.
    + reflexivity.
  - apply (proj2 C2_delete_then_undo st_two "t1" "t2"
             (demo_task "t1" Todo None) (demo_task "t2" InProgress None)).
    + simpl. left. reflexivity.
    + reflexivity.
    + simpl. right. left. reflexivity.
    + reflexivity.
    + discriminate.
Defined.

(** C2 as the spec words it fails when two tasks share an id: deleting the
    id removes both, undo brings back the first only, and the other task is
    gone. *)
Lemma C2_shared_id_task_lost :
  tasks st_shared_id =
    [demo_task "t1" Todo None; demo_task "t2" InProgress None; task_again] ∧
  In task_again (tasks st_shared_id) ∧ Task.id task_again = "t1" ∧
  tasks (undoDelete (deleteTask "t1" st_shared_id)) =
    [demo_task "t2" InProgress None; demo_task "t1" Todo None] ∧
  ¬ In task_again (tasks (undoDelete (deleteTask "t1" st_shared_id))).
Proof.
  split; [reflexivity|]. split; [simpl; auto|]. split; [reflexivity|].
  split; [reflexivity|].
  simpl. intros [Heq|[Heq|[]]]; discriminate.
Qed.

(** ** Updating a task *)

Lemma updateTask_nth now i p st n :
  nth_error (tasks (updateTask now i p st)) n =
  option_map (updated now i p) (nth_error (tasks st) n).
Proof.
  unfold updateTask, updated. simpl. rewrite !nth_error_map.
  by destruct (nth_error (tasks st) n).
Qed.

Lemma revalidate_frame i p a :
  Task.id (revalidate i p a) = Task.id a ∧
  Task.title (revalidate i p a) = Task.title a ∧
  Task.revenue (revalidate i p a) = Task.revenue a ∧
  Task.priority (revalidate i p a) = Task.priority a ∧
  Task.status (revalidate i p a) = Task.status a ∧
  Task.notes (revalidate i p a) = Task.notes a ∧
  Task.createdAt (revalidate i p a) = Task.createdAt a ∧
  Task.completedAt (revalidate i p a) = Task.completedAt a.
Proof. unfold revalidate. by destruct (_ && _). Qed.

Lemma patch_task_other now i p a : Task.id a ≠ i → updated now i p a = a.
Proof.
  intros Hne%has_id_false. unfold updated, patch_task. rewrite Hne. simpl.
  unfold revalidate. by rewrite Hne.
Qed.

Lemma patch_task_frame now i p a :
  Task.id a = i →
  Task.id (patch_task now i p a) = default (Task.id a) (Patch.id p) ∧
  Task.title (patch_task now i p a) = default (Task.title a) (Patch.title p) ∧
  Task.revenue (patch_task now i p a) = default (Task.revenue a) (Patch.revenue p) ∧
  Task.timeTaken (patch_task now i p a) = default (Task.timeTaken a) (Patch.timeTaken p) ∧
  Task.priority (patch_task now i p a) = default (Task.priority a) (Patch.priority p) ∧
  Task.status (patch_task now i p a) = default (Task.status a) (Patch.status p) ∧
  Task.notes (patch_task now i p a) = default (Task.notes a) (Patch.notes p) ∧
  Task.createdAt (patch_task now i p a) = default (Task.createdAt a) (Patch.createdAt p).
Proof.
  intros Hi%has_id_true. unfold patch_task. rewrite Hi. simpl.
  by destruct (_ && _).
Qed.

(** A task that is already Done keeps the [completedAt] it has when the
    patch names none. *)
Lemma updated_done_keeps now i p a :
  Task.status a = Done → Patch.completedAt p = None →
  Task.completedAt (updated now i p a) = Task.completedAt a.
Proof.
  intros Hs Hc. unfold updated.
  destruct (revalidate_frame i p (patch_task now i p a)) as (_&_&_&_&_&_&_&->).
  unfold patch_task. destruct (negb (has_id i a)); [done|].
  rewrite Hs. simpl. by rewrite Hc.
Qed.

(** C4, as the code has it: a task that is not Done and carries no
    [completedAt] yet gets [completedAt] set to the current time by a patch
    that sets the status to Done and names no [completedAt]; the same update
    applied again, at any later time, leaves that value in place. *)
Theorem C4_done_stamps_once now i p st n a :
  nth_error (tasks st) n = Some a →
  Task.id a = i →
  Task.status a ≠ Done →
  truthy_str (Task.completedAt a) = false →
  Patch.status p = Some Done →
  Patch.completedAt p = None →
  ∃ a', nth_error (tasks (updateTask now i p st)) n = Some a' ∧
        Task.status a' = Done ∧
        Task.completedAt a' = Some now ∧
        ∀ now2, ∃ a'',
          nth_error (tasks (updateTask now2 i p (updateTask now i p st))) n = Some a'' ∧
          Task.completedAt a'' = Some now.
Proof.
  intros Hn Hi Hs Hc Hps Hpc.
  assert (Task.status (updated now i p a) = Done ∧
          Task.completedAt (updated now i p a) = Some now) as [Hs' Hc'].
  { unfold updated.
    destruct (revalidate_frame i p (patch_task now i p a)) as (_&_&_&_&->&_&_&->).
    unfold patch_task. apply has_id_true in Hi. rewrite Hi. simpl.
    rewrite Hps, Hpc. simpl. rewrite Hc.
    destruct (Task.status a); simpl; rewrite ?Hps; done. }
  exists (updated now i p a). split; [by rewrite updateTask_nth, Hn|].
  split; [done|]. split; [done|].
  intros now2. exists (updated now2 i p (updated now i p a)).
  split; [by rewrite !updateTask_nth, Hn|].
  by rewrite updated_done_keeps.
Qed.

Lemma C4_done_stamps_once_witness :
  ∃ a', nth_error (tasks (updateTask "2024-01-01T00:00:00.000Z" "t1" patch_done st_two)) 0
          = Some a' ∧
        Task.status a' = Done ∧
        Task.completedAt a' = Some "2024-01-01T00:00:00.000Z" ∧
        ∀ now2, ∃ a'',
          nth_error (tasks (updateTask now2 "t1" patch_done
                     (updateTask "2024-01-01T00:00:00.000Z" "t1" patch_done st_two))) 0
            = Some a'' ∧
          Task.completedAt a'' = Some "2024-01-01T00:00:00.000Z".
Proof.
  apply (C4_done_stamps_once "2024-01-01T00:00:00.000Z" "t1" patch_done st_two 0
           (demo_task "t1" Todo None)).
  - reflexivity.
  - reflexivity.
  - discriminate.
  - reflexivity.
  - reflexivity.
  - reflexivity.
Defined.

(** C4 as the spec words it fails on a reopened task: its status is not
    Done, the patch sets Done and names no [completedAt], and the old
    [completedAt] stays. *)
Lemma C4_reopened_task_not_stamped :
  ∃ a a',
    nth_error (tasks st_reopened) 0 = Some a ∧
    Task.id a = "t1" ∧ Task.status a ≠ Done ∧
    Patch.status patch_done = Some Done ∧ Patch.completedAt patch_done = None ∧
    nth_error (tasks (updateTask "2024-01-01T00:00:00.000Z" "t1" patch_done st_reopened)) 0
      = Some a' ∧
    Task.completedAt a' = Some "2023-11-15T22:13:20.000Z" ∧
    Task.completedAt a' ≠ Some "2024-01-01T00:00:00.000Z".
Proof.
  eexists _, _. repeat split; try reflexivity; discriminate.
Qed.

(** ** Adding a task *)

(** C5: [addTask] appends one task; its id is the supplied one or else the
    generated one, a non-positive [timeTaken] becomes 1, [createdAt] is the
    current time and [completedAt] is set exactly when the status is Done,
    whatever [createdAt] and [completedAt] the argument carried.  The record
    of the spec's example is stored with [timeTaken] 1 and no
    [completedAt]. *)
Theorem C5_addTask uuid now task st :
  (∃ a,
     addTask uuid now task st =
       mkState (tasks st ++ [a]) (loading st) (error st) (lastDeleted st) ∧
     Task.id a = default uuid (NewTask.id task) ∧
     Task.timeTaken a =
       (if PrimFloat.leb (NewTask.timeTaken task) 0 then 1%float
        else NewTask.timeTaken task) ∧
     Task.createdAt a = now ∧
     Task.completedAt a = (if is_Done (NewTask.status task) then Some now else None) ∧
     (is_Some (Task.completedAt a) ↔ NewTask.status task = Done) ∧
     Task.title a = NewTask.title task ∧
     Task.revenue a = NewTask.revenue task ∧
     Task.priority a = NewTask.priority task ∧
     Task.status a = NewTask.status task ∧
     Task.notes a = NewTask.notes task) ∧
  tasks (addTask uuid now call_client st) =
    tasks st ++ [Task.mk uuid "Call client" 100 1 High Todo None now None].
Proof.
  split; [|reflexivity].
  eexists. split; [reflexivity|]. simpl. repeat split; try done.
  - destruct (NewTask.status task); simpl; intros [x Hx]; congruence.
  - intros ->. simpl. eauto.
Qed.

(** ** The duration invariant *)

(** C6 fails on the code: [updateTask] revalidates only tasks whose id
    still equals the id it was called with, so a patch that also renames the
    task stores a non-positive [timeTaken]; and the [<= 0] tests of
    [addTask] and [updateTask] let NaN through, which the sanitizer's [> 0]
    test does not. *)
Theorem C6_rename_escapes_revalidation :
  Forall positive (tasks st_two) ∧
  tasks (updateTask "2024-01-01T00:00:00.000Z" "t1" (patch_rename_zero "t9") st_two) =
    [Task.mk "t9" "Call client" 100 0 High Todo None "2023-11-14T22:13:20.000Z" None;
     demo_task "t2" InProgress None] ∧
  ¬ Forall positive
      (tasks (updateTask "2024-01-01T00:00:00.000Z" "t1" (patch_rename_zero "t9") st_two)).
Proof.
  split; [|split].
  - repeat constructor.
  - reflexivity.
  - intros Hall. apply Forall_inv in Hall. unfold positive in Hall.
    simpl in Hall. discriminate.
Qed.

Lemma C6_addTask_stores_NaN uuid now st :
  ¬ Forall positive
      (tasks (addTask uuid now
                (NewTask.mk None "Call client" 100 nan High Todo None None None) st)).
Proof.
  intros Hall. simpl in Hall. apply Forall_app in Hall as [_ Hall].
  apply Forall_inv in Hall. unfold positive in Hall. simpl in Hall. discriminate.
Qed.

(** What does hold: deleting and undoing never store a new duration. *)
Lemma positive_delete_undo st i :
  Forall positive (held st) →
  Forall positive (held (deleteTask i st)) ∧ Forall positive (held (undoDelete st)).
Proof.
  unfold held. intros Hall. apply Forall_app in Hall as [Ht Hd]. split.
  - rewrite Forall_forall in Ht. apply Forall_forall. intros a Ha.
    apply Ht. simpl in Ha. apply list_elem_of_In in Ha.
    apply in_app_or in Ha as [Ha|Ha].
    + apply list_elem_of_In. by apply filter_In in Ha as [Ha _].
    + destruct (List.find (has_id i) (tasks st)) as [d|] eqn:Hf; simpl in Ha; [|done].
      destruct Ha as [<-|[]]. apply list_elem_of_In. by apply find_some in Hf as [Hf _].
  - unfold undoDelete. destruct (lastDeleted st) as [d|] eqn:Hl; simpl in *.
    + rewrite app_nil_r. apply Forall_app_2; assumption.
    + rewrite Hl. apply Forall_app_2; assumption.
Qed.

(** ** Which fields an operation can change *)

(** C8, as the code has it: [createdAt] of every task stays what it was
    under [updateTask] when the patch names no [createdAt], and under
    [deleteTask] and [undoDelete], which only move whole records. *)
Theorem C8_createdAt_kept :
  (∀ now i p st,
     Patch.createdAt p = None →
     map Task.createdAt (tasks (updateTask now i p st)) = map Task.createdAt (tasks st) ∧
     lastDeleted (updateTask now i p st) = lastDeleted st) ∧
  (∀ i st a, In a (held (deleteTask i st)) → In a (tasks st)) ∧
  (∀ st, held (undoDelete st) = held st).
Proof.
  split; [|split].
  - intros now i p st Hp. split; [|done].
    unfold updateTask. simpl. rewrite !map_map. apply map_ext. intros a.
    destruct (revalidate_frame i p (patch_task now i p a)) as (_&_&_&_&_&_&->&_).
    unfold patch_task. destruct (negb (has_id i a)); [done|].
    destruct (_ && _); simpl; by rewrite Hp.
  - intros i st a. unfold held. simpl. intros [Ha|Ha]%in_app_or.
    + by apply filter_In in Ha as [Ha _].
    + destruct (List.find (has_id i) (tasks st)) as [d|] eqn:Hf; simpl in Ha; [|done].
      destruct Ha as [<-|[]]. by apply find_some in Hf as [Hf _].
  - intros st. unfold held, undoDelete.
    destruct (lastDeleted st) as [d|] eqn:Hl; simpl; [|by rewrite Hl].
    by rewrite app_nil_r.
Qed.

Lemma C8_createdAt_kept_witness :
  (map Task.createdAt (tasks (updateTask "2024-01-01T00:00:00.000Z" "t1" patch_done st_two)) =
     map Task.createdAt (tasks st_two) ∧
   lastDeleted (updateTask "2024-01-01T00:00:00.000Z" "t1" patch_done st_two) =
     lastDeleted st_two) ∧
  In (demo_task "t2" InProgress None) (tasks st_two).
Proof.
  split.
  - apply (proj1 C8_createdAt_kept "2024-01-01T00:00:00.000Z" "t1" patch_done st_two).
    reflexivity.
  - apply (proj1 (proj2 C8_createdAt_kept) "t1" st_two).
    simpl. left. reflexivity.
Defined.

(** C8 as the spec words it fails: a patch that names [createdAt]
    overwrites it. *)
Lemma C8_patch_overwrites_createdAt :
  map Task.createdAt (tasks st_two) =
    ["2023-11-14T22:13:20.000Z"; "2023-11-14T22:13:20.000Z"] ∧
  map Task.createdAt
    (tasks (updateTask "2024-01-01T00:00:00.000Z" "t1"
              (patch_createdAt "1999-12-31T00:00:00.000Z") st_two)) =
    ["1999-12-31T00:00:00.000Z"; "2023-11-14T22:13:20.000Z"].
Proof. split; reflexivity. Qed.

(** C10: the patch is merged field by field, id included: every task that
    carried the id [i] carries the patch's id afterwards, every other task
    is the record it was, and renaming to an id that is in use leaves two
    tasks with one id. *)
Theorem C10_patch_renames :
  (∀ now i j p st,
     Patch.id p = Some j →
     length (tasks (updateTask now i p st)) = length (tasks st) ∧
     lastDeleted (updateTask now i p st) = lastDeleted st ∧
     ∀ n a, nth_error (tasks st) n = Some a →
       ∃ a', nth_error (tasks (updateTask now i p st)) n = Some a' ∧
             (Task.id a ≠ i → a' = a) ∧
             (Task.id a = i →
                Task.id a' = j ∧
                Task.title a' = default (Task.title a) (Patch.title p) ∧
                Task.revenue a' = default (Task.revenue a) (Patch.revenue p) ∧
                Task.priority a' = default (Task.priority a) (Patch.priority p) ∧
                Task.status a' = default (Task.status a) (Patch.status p) ∧
                Task.notes a' = default (Task.notes a) (Patch.notes p) ∧
                Task.createdAt a' = default (Task.createdAt a) (Patch.createdAt p))) ∧
  (unique_ids (tasks st_two) ∧
   map Task.id (tasks (updateTask "2024-01-01T00:00:00.000Z" "t1" (patch_rename "t2") st_two))
     = ["t2"; "t2"] ∧
   ¬ unique_ids
       (tasks (updateTask "2024-01-01T00:00:00.000Z" "t1" (patch_rename "t2") st_two))).
Proof.
  split.
  - intros now i j p st Hp. split; [|split; [done|]].
    { unfold updateTask. simpl. by rewrite !length_map. }
    intros n a Hn. exists (updated now i p a).
    split; [by rewrite updateTask_nth, Hn|]. split.
    + apply patch_task_other.
    + intros Hi. unfold updated.
      destruct (revalidate_frame i p (patch_task now i p a))
        as (-> & -> & -> & -> & -> & -> & -> & _).
      destruct (patch_task_frame now i p a Hi)
        as (-> & -> & -> & _ & -> & -> & -> & ->).
      by rewrite Hp.
  - split; [|split; [reflexivity|]].
    + unfold unique_ids. simpl. apply NoDup_cons. split.
      * intros [Heq|[]%elem_of_nil]%elem_of_cons. discriminate.
      * apply NoDup_singleton.
    + unfold unique_ids. simpl. intros [Hx _]%NoDup_cons.
      apply Hx. by left.
Qed.

Lemma C10_patch_renames_witness :
  length (tasks (updateTask "2024-01-01T00:00:00.000Z" "t1" (patch_rename "t2") st_two)) =
    length (tasks st_two) ∧
  ∃ a', nth_error
          (tasks (updateTask "2024-01-01T00:00:00.000Z" "t1" (patch_rename "t2") st_two)) 0
          = Some a' ∧
        Task.id a' = "t2".
Proof.
  destruct (proj1 C10_patch_renames "2024-01-01T00:00:00.000Z" "t1" "t2"
              (patch_rename "t2") st_two eq_refl) as (Hlen & _ & Hnth).
  split; [exact Hlen|].
  destruct (Hnth 0%nat (demo_task "t1" Todo None) eq_refl) as (a' & Ha' & _ & Hid).
  exists a'. split; [exact Ha'|]. apply Hid. reflexivity.
Defined.

(** ** Metrics *)

(** C9: on the empty list the metrics are the constant [INITIAL_METRICS],
    all zeros with the grade ['Needs Improvement'], whatever the aggregate
    functions are: none of them is called, so nothing is divided. *)
Theorem C9_metrics_empty (L : Logic) :
  metrics [] = INITIAL_METRICS ∧
  totalRevenue (metrics []) = 0%float ∧
  totalTimeTaken (metrics []) = 0%float ∧
  timeEfficiencyPct (metrics []) = 0%float ∧
  revenuePerHour (metrics []) = 0%float ∧
  averageROI (metrics []) = 0%float ∧
  performanceGrade (metrics []) = "Needs Improvement".
Proof. repeat split. Qed.

(** ** The load-time passes *)

(** The example platform prints dates as a browser does. *)
Example demo_iso_epoch : demo_toISOString 0 = "1970-01-01T00:00:00.000Z".
Proof. vm_compute. reflexivity. Qed.
Example demo_iso_1 : demo_toISOString 1700000000000 = "2023-11-14T22:13:20.000Z".
Proof. vm_compute. reflexivity. Qed.
Example demo_iso_2 : demo_toISOString 951782400000 = "2000-02-29T00:00:00.000Z".
Proof. vm_compute. reflexivity. Qed.
Example demo_iso_3 : demo_toISOString (-1) = "1969-12-31T23:59:59.999Z".
Proof. vm_compute. reflexivity. Qed.
Example demo_iso_4 : demo_toISOString 1709251199999 = "2024-02-29T23:59:59.999Z".
Proof. vm_compute. reflexivity. Qed.
Example demo_iso_5 : demo_toISOString 253402300800000 = "+010000-01-01T00:00:00.000Z".
Proof. vm_compute. reflexivity. Qed.

(** [x > 0 ? x : 1] is greater than 0, also for NaN. *)
Lemma gt0_or_one (x : float) :
  PrimFloat.ltb 0 (if PrimFloat.ltb 0 x then x else 1) = true.
Proof. destruct (PrimFloat.ltb 0 x) eqn:Hx; [exact Hx|reflexivity]. Qed.

Section LoadProperties.
Context `{Host}.

Lemma sanitize_status_done t :
  is_str "Done" (opt_get t "status") = true → sanitize_status t = Done.
Proof.
  unfold is_str, sanitize_status. destruct (opt_get t "status"); try done.
  by intros ->%String.eqb_eq.
Qed.

Lemma iso_returns d s : iso d = Returns s ↔ ∃ z, d = Some z ∧ s = toISOString z.
Proof.
  destruct d as [z|]; simpl; split.
  - intros [= <-]. eauto.
  - by intros (z' & [= <-] & ->).
  - done.
  - by intros (z' & [=] & _).
Qed.

(** What one call of the sanitizer's callback returns. *)
Lemma sanitize_one_returns idx seen t a seen' :
  sanitize_one idx seen t = Returns (a, seen') →
  Task.id a = final_id idx seen t ∧
  seen' = {[final_id idx seen t]} ∪ seen ∧
  positive a ∧
  Task.status a = sanitize_status t ∧
  ∃ c, (if truthy (opt_get t "createdAt") then Date_of (opt_get t "createdAt")
        else Some (clock idx)) = Some c ∧
       Task.createdAt a = toISOString c ∧
       (truthy (opt_get t "completedAt") = false →
        Task.completedAt a =
          if is_Done (sanitize_status t)
          then toISOString <$> Date_of (JString (toISOString c))
          else None).
Proof.
  unfold sanitize_one.
  set (created := if truthy (opt_get t "createdAt")
                  then Date_of (opt_get t "createdAt") else Some (clock idx)).
  assert ((if truthy (opt_get t "createdAt") then iso (Date_of (opt_get t "createdAt"))
           else Returns (toISOString (clock idx))) = iso created) as ->.
  { unfold created. by destruct (truthy _). }
  destruct created as [c|]; simpl; [|done].
  destruct (truthy (opt_get t "completedAt")) eqn:Hc.
  - destruct (Date_of (opt_get t "completedAt")) as [z|]; simpl; [|done].
    intros [= <- <-]. simpl. repeat split; try done.
    + apply gt0_or_one.
    + exists c. done.
  - destruct (is_Done (sanitize_status t)) eqn:Hd.
    + destruct (Date_of (JString (toISOString c))) as [z|] eqn:Hz; simpl; [|done].
      intros [= <- <-]. simpl. repeat split; try done.
      * apply gt0_or_one.
      * exists c. by rewrite Hz.
    + simpl. intros [= <- <-]. simpl. repeat split; try done.
      * apply gt0_or_one.
      * exists c. done.
Qed.

(** The callback returns exactly when the dates it renders are valid. *)
Lemma sanitize_one_total idx seen t :
  dates_valid idx t = true ↔ ∃ r, sanitize_one idx seen t = Returns r.
Proof.
  unfold sanitize_one, dates_valid.
  set (created := if truthy (opt_get t "createdAt")
                  then Date_of (opt_get t "createdAt") else Some (clock idx)).
  assert ((if truthy (opt_get t "createdAt") then iso (Date_of (opt_get t "createdAt"))
           else Returns (toISOString (clock idx))) = iso created) as ->.
  { unfold created. by destruct (truthy _). }
  destruct created as [c|]; simpl; [|by split; [|intros [r Hr]]].
  destruct (truthy (opt_get t "completedAt")).
  - destruct (Date_of (opt_get t "completedAt")) as [z|]; simpl.
    + split; [eauto|done].
    + split; [done|by intros [r Hr]].
  - destruct (is_Done (sanitize_status t)); simpl; [|by split; eauto].
    destruct (Date_of (JString (toISOString c))) as [z|]; simpl.
    + split; [eauto|done].
    + split; [done|by intros [r Hr]].
Qed.

Lemma final_id_fresh idx seen t :
  final_id idx seen t ∉ seen ↔
  (if decide (candidate_id idx t ∈ seen)
   then bool_decide (replacement_id idx (candidate_id idx t) ∉ seen) else true) = true.
Proof.
  unfold final_id. destruct (decide (candidate_id idx t ∈ seen)) as [Hin|Hout].
  - by rewrite bool_decide_eq_true.
  - done.
Qed.

(** The loop of the sanitizer: one output per input, every duration
    positive, and ids that are new and pairwise distinct exactly when every
    replacement drawn was new. *)
Lemma sanitize_from_returns l : ∀ idx seen out,
  sanitize_from idx seen l = Returns out →
  length out = length l ∧
  Forall positive out ∧
  ((NoDup (map Task.id out) ∧ ∀ x, x ∈ map Task.id out → x ∉ seen) ↔
   replacements_fresh idx seen l = true).
Proof.
  induction l as [|t l IH]; intros idx seen out; simpl.
  - intros [= <-]. simpl. split; [done|]. split; [constructor|].
    split; [done|]. intros _. split; [constructor|]. by intros x ?%elem_of_nil.
  - destruct (sanitize_one idx seen t) as [[a seen']|e] eqn:Hone; simpl; [|done].
    destruct (sanitize_from (S idx) seen' l) as [rs|e] eqn:Hrest; simpl; [|done].
    intros [= <-].
    apply sanitize_one_returns in Hone as (Hid & -> & Hpos & _).
    apply IH in Hrest as (Hlen & Hall & Hids).
    split; [simpl; by rewrite Hlen|]. split; [by constructor|].
    simpl. rewrite Hid, andb_true_iff, <- Hids, <- final_id_fresh, NoDup_cons.
    set (f := final_id idx seen t). split.
    + intros ((Hf & Hnd) & Hseen). split; [apply Hseen; by left|].
      split; [done|]. intros x Hx. apply not_elem_of_union. split.
      * intros ->%elem_of_singleton. done.
      * apply Hseen. by right.
    + intros (Hf & Hnd & Hseen). split; [split; [|done]|].
      * intros Hx. apply Hseen in Hx. apply Hx, elem_of_union_l. by apply elem_of_singleton.
      * intros x [->|Hx]%elem_of_cons; [done|].
        apply Hseen in Hx. intros Hin. apply Hx, elem_of_union_r, Hin.
Qed.

Lemma sanitize_from_total l : ∀ idx seen,
  all_dates_valid idx l = true ↔ ∃ out, sanitize_from idx seen l = Returns out.
Proof.
  induction l as [|t l IH]; intros idx seen; simpl.
  - split; eauto.
  - rewrite andb_true_iff, (sanitize_one_total idx seen t). split.
    + intros [[[a seen'] Hone] Hrest]. rewrite Hone. simpl.
      apply (IH (S idx) seen') in Hrest as [rs ->]. simpl. eauto.
    + intros [out Hout].
      destruct (sanitize_one idx seen t) as [[a seen']|e] eqn:Hone; simpl in Hout; [|done].
      split; [eauto|]. apply (IH (S idx) seen').
      destruct (sanitize_from (S idx) seen' l) as [rs|e']; simpl in Hout; [eauto|done].
Qed.

(** What the sanitizer does guarantee: [sanitizeTasks] returns exactly when every
    date it has to render is valid (otherwise [toISOString] raises a
    [RangeError]); what it returns has one task per record, every
    [timeTaken] greater than 0, and pairwise distinct ids exactly when every
    replacement id drawn for a duplicate was an id not yet in use, which the
    code does not test. *)
Theorem C3_sanitizeTasks input :
  (all_dates_valid 0 (as_array input) = true ↔
   ∃ out, sanitizeTasks input = Returns out) ∧
  (∀ out, sanitizeTasks input = Returns out →
     length out = length (as_array input) ∧
     Forall positive out ∧
     (unique_ids out ↔ replacements_fresh 0 ∅ (as_array input) = true)).
Proof.
  split; [apply sanitize_from_total|].
  intros out Hout. apply sanitize_from_returns in Hout as (Hlen & Hall & Hids).
  split; [done|]. split; [done|]. rewrite <- Hids. unfold unique_ids. split.
  - intros Hnd. split; [done|]. intros x _. apply not_elem_of_empty.
  - by intros [Hnd _].
Qed.

(** C7, as the code has it: for a record whose status is Done and that
    supplies no [completedAt], the sanitizer renders [completedAt] from the
    [createdAt] string it has just produced, with no day added, and the
    normalizer renders it one day after its [createdAt]. *)
Theorem C7_completedAt_rules now idx seen t :
  is_str "Done" (opt_get t "status") = true →
  truthy (opt_get t "completedAt") = false →
  (dates_valid idx t = true ↔ ∃ r, sanitize_one idx seen t = Returns r) ∧
  (∀ a seen', sanitize_one idx seen t = Returns (a, seen') →
     ∃ c d, Task.createdAt a = toISOString c ∧
            Date_of (JString (Task.createdAt a)) = Some d ∧
            Task.completedAt a = Some (toISOString d)) ∧
  (∀ r, normalize_one now idx t = Returns r →
     ∃ c, opt_get r "createdAt" = JString (toISOString c) ∧
          opt_get r "completedAt" = JString (toISOString (c + day_ms))).
Proof.
  intros Hdone Hnone. split; [apply sanitize_one_total|]. split.
  - intros a seen' Hone.
    pose proof Hone as Hret.
    apply sanitize_one_returns in Hone as (_ & _ & _ & _ & c & _ & Hc & Hcompl).
    specialize (Hcompl Hnone). rewrite (sanitize_status_done _ Hdone) in Hcompl.
    simpl in Hcompl.
    destruct (Date_of (JString (toISOString c))) as [d|] eqn:Hd.
    + exists c, d. rewrite Hc. done.
    + exfalso. revert Hret. unfold sanitize_one.
      rewrite Hnone, (sanitize_status_done _ Hdone). simpl.
      destruct (if truthy (opt_get t "createdAt") then _ else _) as [s|e] eqn:Hs;
        simpl; [|done].
      destruct (Date_of (JString s)) as [d|] eqn:Hd'; simpl; [|done].
      intros [= <- _]. simpl in Hc. subst s. congruence.
  - intros r. unfold normalize_one.
    destruct t as [| | | | | |fs]; simpl in Hdone; try done.
    simpl get. simpl mbind at 1. simpl in Hnone. rewrite Hnone, Hdone.
    set (created := if truthy (assoc "createdAt" fs) then Date_of (assoc "createdAt" fs)
                    else TimeClip (now - (Z.of_nat idx + 1) * day_ms)).
    destruct created as [c|]; simpl; [|done].
    destruct (TimeClip (c + day_ms)) as [d|] eqn:Hclip; simpl; [|done].
    intros [= <-]. exists c. simpl. split; [done|].
    unfold TimeClip in Hclip. destruct (_ <=? _)%Z; congruence.
Qed.

End LoadProperties.

Lemma C3_sanitizeTasks_witness :
  ∃ out, @sanitizeTasks demo_host raw_repeat = Returns out ∧
         length out = 3%nat ∧ Forall positive out ∧ unique_ids out.
Proof.
  destruct (@C3_sanitizeTasks demo_host raw_repeat) as [Htotal Hret].
  destruct (proj1 Htotal) as [out Hout]; [vm_compute; reflexivity|].
  destruct (Hret out Hout) as (Hlen & Hpos & Huniq).
  exists out. split; [exact Hout|]. split; [exact Hlen|]. split; [exact Hpos|].
  apply Huniq. vm_compute. reflexivity.
Defined.

(** C3 fails on the code: the block commented [ensure unique id] replaces
    a duplicate once and never tests the replacement.  Without
    [crypto.randomUUID] the replacement of the third id is ["a-k3j2x9"],
    which the second record already carries, and the output has that id
    twice. *)
Lemma C3_replacement_can_clash :
  @sanitizeTasks demo_host raw_clash =
    Returns [sanitized_id "a" "1"; sanitized_id "a-k3j2x9" "2"; sanitized_id "a-k3j2x9" "3"] ∧
  ¬ unique_ids [sanitized_id "a" "1"; sanitized_id "a-k3j2x9" "2"; sanitized_id "a-k3j2x9" "3"].
Proof.
  split; [vm_compute; reflexivity|].
  unfold unique_ids. simpl. intros [_ [Hx _]%NoDup_cons]%NoDup_cons.
  apply Hx. by left.
Qed.

(** A truthy [completedAt] that is no date makes the sanitizer raise. *)
Lemma sanitizeTasks_bad_date_raises :
  @sanitizeTasks demo_host raw_bad_date = Throws RangeError.
Proof. vm_compute. reflexivity. Qed.

Lemma C7_completedAt_rules_witness :
  (@dates_valid demo_host 0 raw_done = true ↔
   ∃ r, @sanitize_one demo_host 0 ∅ raw_done = Returns r) ∧
  (∀ a seen', @sanitize_one demo_host 0 ∅ raw_done = Returns (a, seen') →
     ∃ c d, Task.createdAt a = demo_toISOString c ∧
            demo_Date_of (JString (Task.createdAt a)) = Some d ∧
            Task.completedAt a = Some (demo_toISOString d)) ∧
  (∀ r, @normalize_one demo_host 1700000000000 0 raw_done = Returns r →
     ∃ c, opt_get r "createdAt" = JString (demo_toISOString c) ∧
          opt_get r "completedAt" = JString (demo_toISOString (c + @day_ms))).
Proof.
  apply (@C7_completedAt_rules demo_host 1700000000000 0 ∅ raw_done).
  - reflexivity.
  - reflexivity.
Defined.

(** C7 as the spec words it fails: for a Done record created on
    2023-11-14 the sanitizer gives that very instant as [completedAt], the
    normalizer gives 2023-11-15. *)
Lemma C7_sanitizer_adds_no_day :
  is_str "Done" (opt_get raw_done "status") = true ∧
  truthy (opt_get raw_done "completedAt") = false ∧
  match @sanitize_one demo_host 0 ∅ raw_done with
  | Returns (a, _) =>
      Task.createdAt a = "2023-11-14T22:13:20.000Z" ∧
      Task.completedAt a = Some "2023-11-14T22:13:20.000Z" ∧
      Task.completedAt a ≠ Some (demo_toISOString (1700000000000 + 86400000))
  | Throws _ => False
  end ∧
  match @normalize_one demo_host 1700000000000 0 raw_done with
  | Returns r =>
      opt_get r "createdAt" = JString "2023-11-14T22:13:20.000Z" ∧
      opt_get r "completedAt" = JString "2023-11-15T22:13:20.000Z"
  | Throws _ => False
  end.
Proof.
  split; [reflexivity|]. split; [reflexivity|]. split.
  - vm_compute. repeat split. discriminate.
  - vm_compute. split; reflexivity.
Qed.

(** * Further properties of the store *)

(** ** Deleting *)

Lemma deleteTask_absent i st : absent i (deleteTask i st).
Proof. intros a Ha. simpl in Ha. by apply filter_gone in Ha as [_ Ha]. Qed.

(** X1: [deleteTask] takes out every task that carries the id, keeps every
    other task, and keeps their order. *)
Theorem deleteTask_removes_all i st :
  absent i (deleteTask i st) ∧
  (∀ a, Task.id a ≠ i → (In a (tasks (deleteTask i st)) ↔ In a (tasks st))) ∧
  sublist (tasks (deleteTask i st)) (tasks st).
Proof.
  split; [|split].
  - apply deleteTask_absent.
  - intros a Hne. simpl. split.
    + by intros [Ha _]%filter_gone.
    + intros Ha. by apply (filter_other i (Task.id a)).
  - simpl. induction (tasks st) as [|x l IH]; simpl; [constructor|].
    destruct (negb (has_id i x)); by constructor.
Qed.

Lemma filter_restore i l a :
  unique_ids l → List.find (has_id i) l = Some a →
  List.filter (fun x => negb (has_id i x)) l ++ [a] ≡ₚ l.
Proof.
  unfold unique_ids. induction l as [|x l IH]; simpl; [done|].
  intros [Hx Hnd]%NoDup_cons. destruct (has_id i x) eqn:Hix; simpl.
  - intros [= <-]. rewrite filter_absent.
    + symmetry. apply Permutation_cons_append.
    + intros b Hb Hid. apply has_id_true in Hix. apply Hx.
      rewrite Hix, <- Hid. by apply list_elem_of_In, in_map.
  - intros Hf. by rewrite (IH Hnd Hf).
Qed.

(** X2: in a store with pairwise distinct ids, deleting a listed id and
    undoing gives back the same tasks, up to the position of the restored
    one, and leaves no undo candidate. *)
Theorem delete_undo_permutation i st a0 :
  unique_ids (tasks st) → In a0 (tasks st) → Task.id a0 = i →
  tasks (undoDelete (deleteTask i st)) ≡ₚ tasks st ∧
  lastDeleted (undoDelete (deleteTask i st)) = None ∧
  unique_ids (tasks (undoDelete (deleteTask i st))).
Proof.
  intros Hu Hin Hid.
  destruct (find_present i _ _ Hin Hid) as (a & Hf & _ & _).
  assert (tasks (undoDelete (deleteTask i st)) ≡ₚ tasks st) as Hperm.
  { unfold undoDelete, deleteTask. simpl. rewrite Hf. simpl.
    by apply filter_restore. }
  split; [done|]. split.
  - unfold undoDelete, deleteTask. simpl. by rewrite Hf.
  - unfold unique_ids. by rewrite Hperm.
Qed.

Lemma delete_undo_permutation_witness :
  tasks (undoDelete (deleteTask "t1" st_two)) ≡ₚ tasks st_two ∧
  lastDeleted (undoDelete (deleteTask "t1" st_two)) = None ∧
  unique_ids (tasks (undoDelete (deleteTask "t1" st_two))).
Proof.
  apply (delete_undo_permutation "t1" st_two (demo_task "t1" Todo None)).
  - unfold unique_ids. simpl. apply NoDup_cons. split.
    + intros [Heq|[]%elem_of_nil]%elem_of_cons. discriminate.
    + apply NoDup_singleton.
  - simpl. left. reflexivity.
  - reflexivity.
Defined.

(** X3: deleting the same id a second time finds nothing and overwrites
    the undo candidate with [null]: the task can no longer be restored. *)
Theorem delete_twice_drops_candidate i st :
  tasks (deleteTask i (deleteTask i st)) = tasks (deleteTask i st) ∧
  lastDeleted (deleteTask i (deleteTask i st)) = None ∧
  undoDelete (deleteTask i (deleteTask i st)) = deleteTask i (deleteTask i st) ∧
  absent i (undoDelete (deleteTask i (deleteTask i st))).
Proof.
  assert (absent i (deleteTask i st)) as Habs by apply deleteTask_absent.
  assert (lastDeleted (deleteTask i (deleteTask i st)) = None) as Hnone.
  { unfold deleteTask at 1. simpl lastDeleted. by apply find_absent. }
  assert (tasks (deleteTask i (deleteTask i st)) = tasks (deleteTask i st)) as Htasks.
  { unfold deleteTask at 1. simpl tasks at 1. by apply filter_absent. }
  assert (undoDelete (deleteTask i (deleteTask i st)) = deleteTask i (deleteTask i st))
    as Hundo by (unfold undoDelete; by rewrite Hnone).
  split; [done|]. split; [done|]. split; [done|].
  rewrite Hundo. unfold absent. by rewrite Htasks.
Qed.

Lemma find_tail_absent i l l' :
  (∀ a, In a l → Task.id a ≠ i) →
  List.find (has_id i) (l ++ l') = List.find (has_id i) l'.
Proof.
  induction l as [|x l IH]; intros Hl; simpl; [done|].
  assert (has_id i x = false) as -> by (apply has_id_false, Hl; now left).
  apply IH. intros b Hb. apply Hl. now right.
Qed.

(** X25: deleting the task at the end of the list and undoing restores
    the state exactly, when no other task carries the id and no candidate
    was cached before. *)
Theorem delete_last_undo_restores l a st :
  tasks st = l ++ [a] → (∀ b, In b l → Task.id b ≠ Task.id a) →
  lastDeleted st = None →
  undoDelete (deleteTask (Task.id a) st) = st.
Proof.
  intros Ht Hl Hd. destruct st as [ts ld e d]. simpl in *. subst ts d.
  unfold undoDelete, deleteTask. simpl.
  assert (has_id (Task.id a) a = true) as Ha by (by apply has_id_true).
  rewrite find_tail_absent by done. simpl. rewrite Ha.
  rewrite List.filter_app, filter_absent by done. simpl. rewrite Ha. simpl.
  by rewrite app_nil_r.
Qed.

Lemma delete_last_undo_restores_witness :
  undoDelete (deleteTask "t2" st_two) = st_two.
Proof.
  apply (delete_last_undo_restores [demo_task "t1" Todo None]
           (demo_task "t2" InProgress None) st_two).
  - reflexivity.
  - intros b [<-|[]]. discriminate.
  - reflexivity.
Defined.

(** ** Uniqueness of ids *)

Lemma filter_unique (f : Task.t → bool) l :
  unique_ids l → unique_ids (List.filter f l).
Proof.
  unfold unique_ids. induction l as [|x l IH]; simpl; [done|].
  intros [Hx Hnd]%NoDup_cons. destruct (f x); simpl; [|by apply IH].
  apply NoDup_cons. split; [|by apply IH].
  intros Hin. apply Hx. apply list_elem_of_In, in_map_iff in Hin as (b & Hb & Hin).
  apply filter_In in Hin as [Hin _]. rewrite <- Hb. by apply list_elem_of_In, in_map.
Qed.

Lemma updated_id_kept now i p a :
  Patch.id p = None → Task.id (updated now i p a) = Task.id a.
Proof.
  intros Hp. unfold updated.
  destruct (revalidate_frame i p (patch_task now i p a)) as (-> & _).
  unfold patch_task. destruct (negb (has_id i a)); [done|].
  destruct (_ && _); simpl; by rewrite Hp.
Qed.

(** X4: the operations that cannot bring in a second task with an id in
    use: [deleteTask], [updateTask] with a patch that names no id (the ids
    stay as they are, in order), and [addTask] when the id it stores is not
    in the list. *)
Theorem unique_ids_kept st :
  unique_ids (tasks st) →
  (∀ i, unique_ids (tasks (deleteTask i st))) ∧
  (∀ now i p, Patch.id p = None →
     map Task.id (tasks (updateTask now i p st)) = map Task.id (tasks st) ∧
     unique_ids (tasks (updateTask now i p st))) ∧
  (∀ uuid now task, absent (default uuid (NewTask.id task)) st →
     unique_ids (tasks (addTask uuid now task st))).
Proof.
  intros Hu. split; [|split].
  - intros i. simpl. by apply filter_unique.
  - intros now i p Hp.
    assert (map Task.id (tasks (updateTask now i p st)) = map Task.id (tasks st)) as Hids.
    { unfold updateTask. simpl. rewrite !map_map. apply map_ext. intros a.
      by apply updated_id_kept. }
    split; [done|]. unfold unique_ids. by rewrite Hids.
  - intros uuid now task Habs. unfold unique_ids, addTask. simpl.
    rewrite map_app. simpl. apply NoDup_app. split; [done|]. split.
    + intros x Hx [->|[]%elem_of_nil]%elem_of_cons.
      apply list_elem_of_In, in_map_iff in Hx as (b & Hb & Hin).
      by apply (Habs b).
    + apply NoDup_singleton.
Qed.

Lemma unique_ids_kept_witness :
  (∀ i, unique_ids (tasks (deleteTask i st_two))) ∧
  (map Task.id (tasks (updateTask "2024-01-01T00:00:00.000Z" "t1" patch_done st_two)) =
     map Task.id (tasks st_two) ∧
   unique_ids (tasks (updateTask "2024-01-01T00:00:00.000Z" "t1" patch_done st_two))) ∧
  unique_ids (tasks (addTask "6f1c0a52-3b7e-4c1d-9a50-2f4e8d7b9c11"
                       "2024-01-01T00:00:00.000Z" call_client st_two)).
Proof.
  assert (unique_ids (tasks st_two)) as Hu.
  { unfold unique_ids. simpl. apply NoDup_cons. split.
    - intros [Heq|[]%elem_of_nil]%elem_of_cons. discriminate.
    - apply NoDup_singleton. }
  destruct (unique_ids_kept st_two Hu) as (Hdel & Hupd & Hadd).
  split; [exact Hdel|]. split.
  - apply Hupd. reflexivity.
  - apply Hadd. intros a [<-|[<-|[]]]; discriminate.
Defined.

(** X5: [addTask] does not look at the ids in the list: given an id that a
    task already carries, it stores a second task with that id. *)
Theorem addTask_duplicates_id uuid now task st a :
  In a (tasks st) → Task.id a = default uuid (NewTask.id task) →
  ¬ unique_ids (tasks (addTask uuid now task st)).
Proof.
  intros Hin Hid. unfold unique_ids, addTask. simpl. rewrite map_app. simpl.
  intros Hnd. apply NoDup_app in Hnd as (_ & Hdisj & _).
  apply (Hdisj (Task.id a)).
  - by apply list_elem_of_In, in_map.
  - rewrite Hid. by left.
Qed.

Lemma addTask_duplicates_id_witness :
  ¬ unique_ids
      (tasks (addTask "6f1c0a52-3b7e-4c1d-9a50-2f4e8d7b9c11" "2024-01-01T00:00:00.000Z"
                (NewTask.mk (Some "t1") "Again" 1 1 Low Todo None None None) st_two)).
Proof.
  apply (addTask_duplicates_id _ _ _ st_two (demo_task "t1" Todo None)).
  - simpl. left. reflexivity.
  - reflexivity.
Defined.

(** X6: adding a task and deleting its id again gives back the list as it
    was and caches the new task, and undoing then gives the state that
    [addTask] had produced, provided the id was not in use. *)
Theorem add_delete_undo uuid now task st :
  absent (default uuid (NewTask.id task)) st →
  tasks (deleteTask (default uuid (NewTask.id task)) (addTask uuid now task st)) = tasks st ∧
  (∃ a, lastDeleted (deleteTask (default uuid (NewTask.id task)) (addTask uuid now task st))
          = Some a ∧
        tasks (addTask uuid now task st) = tasks st ++ [a]) ∧
  undoDelete (deleteTask (default uuid (NewTask.id task)) (addTask uuid now task st)) =
    mkState (tasks (addTask uuid now task st)) (loading st) (error st) None.
Proof.
  intros Habs. set (i := default uuid (NewTask.id task)) in *.
  unfold addTask. fold i.
  set (a := Task.mk i _ _ _ _ _ _ _ _).
  assert (has_id i a = true) as Ha by (by apply has_id_true).
  assert (List.filter (λ x, negb (has_id i x)) (tasks st ++ [a]) = tasks st) as Hfilter.
  { rewrite List.filter_app, filter_absent by done. simpl. rewrite Ha. simpl.
    apply app_nil_r. }
  assert (List.find (has_id i) (tasks st ++ [a]) = Some a) as Hfind.
  { rewrite find_tail_absent by done. simpl. by rewrite Ha. }
  unfold undoDelete, deleteTask. simpl. rewrite Hfilter, Hfind.
  split; [done|]. split; [by exists a|done].
Qed.

Lemma add_delete_undo_witness :
  tasks (deleteTask "6f1c0a52-3b7e-4c1d-9a50-2f4e8d7b9c11"
           (addTask "6f1c0a52-3b7e-4c1d-9a50-2f4e8d7b9c11" "2024-01-01T00:00:00.000Z"
              call_client st_two)) = tasks st_two.
Proof.
  apply (add_delete_undo "6f1c0a52-3b7e-4c1d-9a50-2f4e8d7b9c11"
           "2024-01-01T00:00:00.000Z" call_client st_two).
  intros a [<-|[<-|[]]]; discriminate.
Defined.

(** ** Updating *)



Lemma leb_after_coerce (m : float) :
  PrimFloat.leb (if PrimFloat.leb m 0 then 1 else m) 0 = false.
Proof. destruct (PrimFloat.leb m 0) eqn:Hm; [reflexivity|exact Hm]. Qed.

Lemma updated_timeTaken now i p a :
  Task.id a = i → Patch.id p = None ∨ Patch.id p = Some i →
  Task.timeTaken (updated now i p a) =
    (if PrimFloat.leb (default (Task.timeTaken a) (Patch.timeTaken p)) 0 then 1%float
     else default (Task.timeTaken a) (Patch.timeTaken p)).
Proof.
  intros Hi Hp. unfold updated, revalidate.
  destruct (patch_task_frame now i p a Hi) as (Hid & _ & _ & Htt & _).
  assert (has_id i (patch_task now i p a) = true) as ->.
  { apply has_id_true. rewrite Hid. destruct Hp as [->| ->]; done. }
  rewrite Htt. simpl.
  assert (default (default (Task.timeTaken a) (Patch.timeTaken p)) (Patch.timeTaken p)
          = default (Task.timeTaken a) (Patch.timeTaken p)) as ->
    by (by destruct (Patch.timeTaken p)).
  by destruct (PrimFloat.leb _ 0).
Qed.

(** X8: when the patch does not change the id, the task that
    [updateTask] matched is stored with a [timeTaken] that is not [<= 0]:
    a non-positive value, from the patch or already in the task, has become
    1. *)
Theorem updateTask_revalidates now i p st n a :
  nth_error (tasks st) n = Some a → Task.id a = i →
  Patch.id p = None ∨ Patch.id p = Some i →
  ∃ a', nth_error (tasks (updateTask now i p st)) n = Some a' ∧
        PrimFloat.leb (Task.timeTaken a') 0 = false ∧
        (PrimFloat.leb (default (Task.timeTaken a) (Patch.timeTaken p)) 0 = true →
         Task.timeTaken a' = 1%float) ∧
        (PrimFloat.leb (default (Task.timeTaken a) (Patch.timeTaken p)) 0 = false →
         Task.timeTaken a' = default (Task.timeTaken a) (Patch.timeTaken p)).
Proof.
  intros Hn Hi Hp. exists (updated now i p a).
  split; [by rewrite updateTask_nth, Hn|].
  rewrite (updated_timeTaken now i p a Hi Hp).
  split; [apply leb_after_coerce|]. split; by intros ->.
Qed.

Lemma updateTask_revalidates_witness :
  ∃ a', nth_error (tasks (updateTask "2024-01-01T00:00:00.000Z" "t1" patch_zero st_two)) 0
          = Some a' ∧
        Task.timeTaken a' = 1%float.
Proof.
  destruct (updateTask_revalidates "2024-01-01T00:00:00.000Z" "t1" patch_zero st_two 0
              (demo_task "t1" Todo None) eq_refl eq_refl (or_introl eq_refl))
    as (a' & Ha' & _ & Hone & _).
  exists a'. split; [exact Ha'|]. apply Hone. reflexivity.
Defined.

Lemma updated_completedAt now i p a :
  Patch.completedAt p = None →
  Task.completedAt (updated now i p a) = Task.completedAt a ∨
  (Task.completedAt (updated now i p a) = Some now ∧
   truthy_str (Task.completedAt a) = false ∧
   Task.status a ≠ Done ∧ Task.status (updated now i p a) = Done).
Proof.
  intros Hp. unfold updated.
  destruct (revalidate_frame i p (patch_task now i p a)) as (_&_&_&_&->&_&_&->).
  unfold patch_task. destruct (negb (has_id i a)); [by left|].
  simpl. rewrite Hp. simpl.
  destruct (is_Done (Task.status a)) eqn:Hs; simpl; rewrite ?Hp; simpl; [by left|].
  destruct (is_Done (default (Task.status a) (Patch.status p))) eqn:Hs';
    simpl; rewrite ?Hp; simpl; [|by left].
  destruct (truthy_str (Task.completedAt a)) eqn:Hc; simpl; rewrite ?Hp; simpl; [by left|].
  right. repeat split; try done.
  - intros Heq. by rewrite Heq in Hs.
  - by destruct (default (Task.status a) (Patch.status p)).
Qed.



Lemma updated_again now now2 i p a :
  Patch.completedAt p = None →
  Patch.id p = None ∨ Patch.id p = Some i →
  updated now2 i p (updated now i p a) = updated now i p a.
Proof.
  intros Hc Hp. destruct (has_id i a) eqn:Hia.
  2:{ apply has_id_false in Hia. rewrite (patch_task_other now i p a Hia).
      by apply patch_task_other. }
  apply has_id_true in Hia.
  assert (Task.id (updated now i p a) = i) as Hid'.
  { unfold updated. destruct (revalidate_frame i p (patch_task now i p a)) as (-> & _).
    destruct (patch_task_frame now i p a Hia) as (-> & _).
    destruct Hp as [->| ->]; done. }
  pose proof (updated_timeTaken now2 i p _ Hid' Hp) as Htt2.
  pose proof (updated_timeTaken now i p a Hia Hp) as Htt.
  set (b := updated now i p a) in *.
  assert (Task.timeTaken (updated now2 i p b) = Task.timeTaken b) as Htime.
  { rewrite Htt2. destruct (Patch.timeTaken p) as [v|]; simpl in *.
    - by rewrite Htt.
    - rewrite Htt. by rewrite leb_after_coerce. }
  assert (Task.completedAt (updated now2 i p b) = Task.completedAt b) as Hcompl.
  { destruct (updated_completedAt now2 i p b Hc) as [Hk|(_ & _ & Hnd & Hd)]; [done|].
    exfalso. apply Hnd. clear Hnd. revert Hd. unfold updated.
    destruct (revalidate_frame i p (patch_task now2 i p b)) as (_&_&_&_&->&_).
    destruct (patch_task_frame now2 i p b Hid') as (_&_&_&_&_&->&_).
    subst b. unfold updated.
    destruct (revalidate_frame i p (patch_task now i p a)) as (_&_&_&_&->&_).
    destruct (patch_task_frame now i p a Hia) as (_&_&_&_&_&->&_).
    by destruct (Patch.status p). }
  unfold updated in Htime, Hcompl |- *.
  destruct (revalidate_frame i p (patch_task now2 i p b))
    as (Hr1 & Hr2 & Hr3 & Hr4 & Hr5 & Hr6 & Hr7 & _).
  destruct (patch_task_frame now2 i p b Hid')
    as (Hp1 & Hp2 & Hp3 & _ & Hp5 & Hp6 & Hp7 & Hp8).
  assert (∀ {A} (x : A) (o : option A), default (default x o) o = default x o) as Hdd
    by (by intros A x []).
  assert (Task.id b = default (Task.id a) (Patch.id p) ∧
          Task.title b = default (Task.title a) (Patch.title p) ∧
          Task.revenue b = default (Task.revenue a) (Patch.revenue p) ∧
          Task.priority b = default (Task.priority a) (Patch.priority p) ∧
          Task.status b = default (Task.status a) (Patch.status p) ∧
          Task.notes b = default (Task.notes a) (Patch.notes p) ∧
          Task.createdAt b = default (Task.createdAt a) (Patch.createdAt p))
    as (Hb1 & Hb2 & Hb3 & Hb5 & Hb6 & Hb7 & Hb8).
  { subst b. unfold updated.
    destruct (revalidate_frame i p (patch_task now i p a))
      as (-> & -> & -> & -> & -> & -> & -> & _).
    destruct (patch_task_frame now i p a Hia) as (-> & -> & -> & _ & -> & -> & -> & ->).
    done. }
  set (c := revalidate i p (patch_task now2 i p b)) in *.
  assert (Task.id c = Task.id b) by (rewrite Hr1, Hp1, Hb1; apply Hdd).
  assert (Task.title c = Task.title b) by (rewrite Hr2, Hp2, Hb2; apply Hdd).
  assert (Task.revenue c = Task.revenue b) by (rewrite Hr3, Hp3, Hb3; apply Hdd).
  assert (Task.priority c = Task.priority b) by (rewrite Hr4, Hp5, Hb5; apply Hdd).
  assert (Task.status c = Task.status b) by (rewrite Hr5, Hp6, Hb6; apply Hdd).
  assert (Task.notes c = Task.notes b) by (rewrite Hr6, Hp7, Hb7; apply Hdd).
  assert (Task.createdAt c = Task.createdAt b) by (rewrite Hr7, Hp8, Hb8; apply Hdd).
  destruct c, b; simpl in *; congruence.
Qed.

(** X10: applying the same update a second time, at any later moment,
    changes nothing, provided the patch names no [completedAt] and does not
    change the id. *)
Theorem updateTask_idempotent now now2 i p st :
  Patch.completedAt p = None →
  Patch.id p = None ∨ Patch.id p = Some i →
  updateTask now2 i p (updateTask now i p st) = updateTask now i p st.
Proof.
  intros Hc Hp. unfold updateTask. simpl. f_equal.
  rewrite !map_map. apply map_ext. intros a.
  apply (updated_again now now2 i p a Hc Hp).
Qed.

Lemma updateTask_idempotent_witness :
  updateTask "2024-02-02T00:00:00.000Z" "t1" patch_done
    (updateTask "2024-01-01T00:00:00.000Z" "t1" patch_done st_two) =
  updateTask "2024-01-01T00:00:00.000Z" "t1" patch_done st_two.
Proof.
  apply (updateTask_idempotent "2024-01-01T00:00:00.000Z" "2024-02-02T00:00:00.000Z"
           "t1" patch_done st_two).
  - reflexivity.
  - left. reflexivity.
Defined.

(** A patch that sets [completedAt] to [undefined] is not idempotent: the
    second application erases the time that the first one stamped. *)
Example update_undefined_completedAt_erases :
  map Task.completedAt
    (tasks (updateTask "2024-01-01T00:00:00.000Z" "t1"
              (Patch.mk None None None None None (Some Done) None None (Some None))
              st_two)) = [Some "2024-01-01T00:00:00.000Z"; None] ∧
  map Task.completedAt
    (tasks (updateTask "2024-02-02T00:00:00.000Z" "t1"
              (Patch.mk None None None None None (Some Done) None None (Some None))
              (updateTask "2024-01-01T00:00:00.000Z" "t1"
                 (Patch.mk None None None None None (Some Done) None None (Some None))
                 st_two))) = [None; None].
Proof. split; reflexivity. Qed.

(** ** Metrics after a mutation *)

(** X11: adding a task adds its stored duration, the supplied one or 1, to
    [totalTimeTaken], also when the list was empty and the metrics were the
    default ones. *)
Theorem addTask_totalTimeTaken (L : Logic) uuid now task st :
  totalTimeTaken (metrics (tasks (addTask uuid now task st))) =
  (totalTimeTaken (metrics (tasks st)) +
   (if PrimFloat.leb (NewTask.timeTaken task) 0 then 1 else NewTask.timeTaken task))%float.
Proof.
  unfold addTask, metrics. simpl tasks.
  destruct (tasks st) as [|x l] eqn:Hl; [reflexivity|].
  rewrite length_app. simpl length.
  replace (S (length l + 1) =? 0)%nat with false by (symmetry; by apply Nat.eqb_neq).
  simpl totalTimeTaken. change (x :: l ++ _) with ((x :: l) ++
    [Task.mk (default uuid (NewTask.id task)) (NewTask.title task) (NewTask.revenue task)
       (if PrimFloat.leb (NewTask.timeTaken task) 0 then 1%float else NewTask.timeTaken task)
       (NewTask.priority task) (NewTask.status task) (NewTask.notes task) now
       (if is_Done (NewTask.status task) then Some now else None)]).
  by rewrite fold_left_app.
Qed.

(** * Further properties of the load-time passes *)

Section LoadMore.
Context `{Host}.

Lemma sanitize_title_nonempty idx t : sanitize_title idx t ≠ EmptyString.
Proof.
  unfold sanitize_title. destruct (opt_get t "title"); try done.
  destruct (negb (String.eqb (trim s) EmptyString)) eqn:Hs; [|done].
  by apply negb_true_iff, String.eqb_neq in Hs.
Qed.

Lemma sanitize_notes_nonempty t s : sanitize_notes t = Some s → s ≠ EmptyString.
Proof.
  unfold sanitize_notes. destruct (opt_get t "notes"); try done.
  destruct (negb (String.eqb (trim s0) EmptyString)) eqn:Hs; [|done].
  intros [= <-]. by apply negb_true_iff, String.eqb_neq in Hs.
Qed.

Lemma finite_or_zero (x : float) : is_finite (if is_finite x then x else 0) = true.
Proof. destruct (is_finite x) eqn:Hx; [exact Hx|reflexivity]. Qed.

Lemma sanitize_one_well_formed idx seen t a seen' :
  sanitize_one idx seen t = Returns (a, seen') →
  well_formed a ∧
  Task.title a = sanitize_title idx t ∧
  Task.priority a = sanitize_priority t ∧
  Task.status a = sanitize_status t.
Proof.
  unfold sanitize_one, well_formed.
  destruct (if truthy (opt_get t "createdAt") then _ else _) as [c|e]; simpl; [|done].
  destruct (truthy (opt_get t "completedAt")).
  - destruct (iso (Date_of (opt_get t "completedAt"))) as [s|e]; simpl; [|done].
    intros [= <- _]. simpl.
    repeat split; eauto using sanitize_title_nonempty, finite_or_zero, sanitize_notes_nonempty.
  - destruct (is_Done (sanitize_status t)) eqn:Hd.
    + destruct (iso (Date_of (JString c))) as [s|e]; simpl; [|done].
      intros [= <- _]. simpl.
      repeat split; eauto using sanitize_title_nonempty, finite_or_zero, sanitize_notes_nonempty.
    + simpl. intros [= <- _]. simpl.
      repeat split; eauto using sanitize_title_nonempty, finite_or_zero, sanitize_notes_nonempty.
      intros Hs. by rewrite Hs in Hd.
Qed.

Lemma sanitize_from_well_formed l : ∀ idx seen out,
  sanitize_from idx seen l = Returns out → Forall well_formed out.
Proof.
  induction l as [|t l IH]; intros idx seen out; simpl.
  - intros [= <-]. constructor.
  - destruct (sanitize_one idx seen t) as [[a seen']|e] eqn:Hone; simpl; [|done].
    destruct (sanitize_from (S idx) seen' l) as [rs|e] eqn:Hrest; simpl; [|done].
    intros [= <-]. constructor.
    + by apply sanitize_one_well_formed in Hone as [Hwf _].
    + by apply (IH (S idx) seen').
Qed.

(** X12: every task that [sanitizeTasks] returns has a non-empty title, a
    finite revenue, notes that are non-empty when present, and a
    [completedAt] when its status is Done. *)
Theorem sanitizeTasks_well_formed input out :
  sanitizeTasks input = Returns out → Forall well_formed out.
Proof. apply sanitize_from_well_formed. Qed.

Lemma candidate_of_string_id idx t s : string_id t = Some s → candidate_id idx t = s.
Proof.
  unfold string_id, candidate_id. destruct (opt_get t "id"); try done.
  destruct (negb (String.eqb s0 EmptyString)); [|done]. by intros [= ->].
Qed.

Lemma sanitize_from_keeps_ids l : ∀ idx seen ids out,
  mapM string_id l = Some ids →
  NoDup ids → (∀ x, x ∈ ids → x ∉ seen) →
  sanitize_from idx seen l = Returns out →
  map Task.id out = ids.
Proof.
  induction l as [|t l IH]; intros idx seen ids out; simpl.
  - intros [= <-] _ _ [= <-]. done.
  - destruct (string_id t) as [s|] eqn:Hs; simpl; [|done].
    destruct (mapM string_id l) as [ids'|] eqn:Hids; simpl; [|done].
    intros [= <-] [Hs' Hnd]%NoDup_cons Hseen.
    destruct (sanitize_one idx seen t) as [[a seen']|e] eqn:Hone; simpl; [|done].
    destruct (sanitize_from (S idx) seen' l) as [rs|e] eqn:Hrest; simpl; [|done].
    intros [= <-]. simpl.
    apply sanitize_one_returns in Hone as (Hid & -> & _).
    assert (final_id idx seen t = s) as Hfinal.
    { unfold final_id. rewrite (candidate_of_string_id idx t s Hs).
      destruct (decide (s ∈ seen)) as [Hin|]; [|done].
      exfalso. apply (Hseen s); [by left|done]. }
    rewrite Hfinal in *. f_equal; [done|].
    apply (IH (S idx) ({[s]} ∪ seen) ids' rs); try done.
    intros x Hx. apply not_elem_of_union. split.
    + intros ->%elem_of_singleton. done.
    + apply Hseen. by right.
Qed.

(** X13: when every record carries a non-empty string id and these ids
    are pairwise distinct, [sanitizeTasks] keeps them all, in order, and
    draws no replacement. *)
Theorem sanitizeTasks_keeps_ids input ids out :
  mapM string_id (as_array input) = Some ids → NoDup ids →
  sanitizeTasks input = Returns out →
  map Task.id out = ids ∧ unique_ids out.
Proof.
  intros Hids Hnd Hout.
  assert (map Task.id out = ids) as Heq.
  { apply (sanitize_from_keeps_ids _ 0 ∅ ids out Hids Hnd); [|done].
    intros x _. apply not_elem_of_empty. }
  split; [done|]. unfold unique_ids. by rewrite Heq.
Qed.

Lemma no_dates_valid idx t : no_dates t = true → dates_valid idx t = true.
Proof.
  unfold no_dates, dates_valid.
  intros [[Hc Hd]%andb_true_iff Hs]%andb_true_iff.
  apply negb_true_iff in Hc, Hd, Hs. rewrite Hc, Hd.
  assert (is_Done (sanitize_status t) = false) as ->; [|done].
  unfold sanitize_status, is_str in *. destruct (opt_get t "status"); try done.
  destruct (String.eqb s "Done") eqn:Heq; [done|].
  apply String.eqb_neq in Heq.
  repeat (destruct s as [|[[] [] [] [] [] [] [] []] s]; try done).
Qed.

Lemma all_no_dates_valid l : ∀ idx,
  Forall (λ t, no_dates t = true) l → all_dates_valid idx l = true.
Proof.
  induction l as [|t l IH]; intros idx Hall; simpl; [done|].
  apply Forall_cons in Hall as [Ht Hl].
  by rewrite (no_dates_valid idx t Ht), (IH (S idx) Hl).
Qed.

(** X14: records that carry no [createdAt], no [completedAt] and a status
    other than Done never make [sanitizeTasks] raise, whatever else they
    are: missing fields, wrong types, [null], numbers, nested arrays. *)
Theorem sanitizeTasks_returns_without_dates input :
  Forall (λ t, no_dates t = true) (as_array input) →
  ∃ out, sanitizeTasks input = Returns out ∧ length out = length (as_array input).
Proof.
  intros Hall. apply (all_no_dates_valid _ 0), (sanitize_from_total _ 0 ∅) in Hall as [out Hout].
  exists out. split; [done|]. by apply sanitize_from_returns in Hout as [Hlen _].
Qed.

End LoadMore.

Section NormalizeMore.
Context `{Host}.

(** What one call of the normalizer's callback returns. *)
Lemma normalize_one_returns now idx t r :
  normalize_one now idx t = Returns r →
  nullish t = false ∧
  ∃ c, (if truthy (opt_get t "createdAt") then Date_of (opt_get t "createdAt")
        else TimeClip (now - (Z.of_nat idx + 1) * day_ms)) = Some c ∧
       r = JObject
             [("id", opt_get t "id");
              ("title", opt_get t "title");
              ("revenue", JNumber (Number (opt_get t "revenue")));
              ("timeTaken",
                JNumber (if PrimFloat.ltb 0 (Number (opt_get t "timeTaken"))
                         then Number (opt_get t "timeTaken") else 1));
              ("priority", opt_get t "priority");
              ("status", opt_get t "status");
              ("notes", opt_get t "notes");
              ("createdAt", JString (toISOString c));
              ("completedAt",
                if truthy (opt_get t "completedAt") then opt_get t "completedAt"
                else if is_str "Done" (opt_get t "status")
                then JString (toISOString (c + day_ms)) else JUndefined)].
Proof.
  unfold normalize_one.
  assert (get t "createdAt" = if nullish t then Throws TypeError
                              else Returns (opt_get t "createdAt")) as ->
    by (by destruct t).
  destruct (nullish t); simpl; [done|]. intros Hr. split; [done|].
  revert Hr.
  set (created := if truthy (opt_get t "createdAt") then Date_of (opt_get t "createdAt")
                  else TimeClip (now - (Z.of_nat idx + 1) * day_ms)).
  destruct created as [c|]; simpl.
  - destruct (truthy (opt_get t "completedAt")); simpl.
    + intros [= <-]. by exists c.
    + destruct (is_str "Done" (opt_get t "status")); simpl.
      * destruct (TimeClip (c + day_ms)) as [d|] eqn:Hclip; simpl; [|done].
        intros [= <-]. exists c. split; [done|].
        unfold TimeClip in Hclip. destruct (_ <=? _)%Z; congruence.
      * intros [= <-]. by exists c.
  - destruct (truthy (opt_get t "completedAt")); simpl; [done|].
    by destruct (is_str "Done" (opt_get t "status")).
Qed.

Lemma normalize_one_from now idx t r :
  normalize_one now idx t = Returns r → normalized_from t r.
Proof.
  intros (Hnull & c & _ & ->)%normalize_one_returns. unfold normalized_from. simpl.
  repeat split; try done.
  - eexists. split; [done|]. apply gt0_or_one.
  - by eexists.
  - by eexists.
  - by intros ->.
Qed.

Lemma normalize_from_returns l : ∀ now idx out,
  normalize_from now idx l = Returns out → Forall2 normalized_from l out.
Proof.
  induction l as [|t l IH]; intros now idx out; simpl.
  - intros [= <-]. constructor.
  - destruct (normalize_one now idx t) as [r|e] eqn:Hone; simpl; [|done].
    destruct (normalize_from now (S idx) l) as [rs|e] eqn:Hrest; simpl; [|done].
    intros [= <-]. constructor.
    + by apply (normalize_one_from now idx).
    + by apply (IH now (S idx)).
Qed.

Lemma normalizeTasks_returns_length now input out :
  normalizeTasks now input = Returns out → length out = length (as_array input).
Proof.
  intros Hout%normalize_from_returns. symmetry. by apply Forall2_length in Hout.
Qed.

(** X15: when [normalizeTasks] returns, no record was [null] or
    [undefined], and record by record the output copies [id], [title],
    [priority], [status], [notes] and a truthy [completedAt] untouched and
    carries a [timeTaken] that is a number greater than 0, a numeric
    [revenue] and a string [createdAt]. *)
Theorem normalizeTasks_returns now input out :
  normalizeTasks now input = Returns out →
  Forall2 normalized_from (as_array input) out ∧
  length out = length (as_array input).
Proof.
  intros Hout%normalize_from_returns. split; [done|].
  symmetry. by apply Forall2_length in Hout.
Qed.

Lemma normalize_from_nullish l : ∀ now idx,
  Exists (λ t, nullish t = true) l → ∃ e, normalize_from now idx l = Throws e.
Proof.
  induction l as [|t l IH]; intros now idx Hex; [by apply Exists_nil in Hex|].
  simpl. destruct (normalize_one now idx t) as [r|e] eqn:Hone; simpl; [|eauto].
  apply Exists_cons in Hex as [Ht|Hl].
  - apply normalize_one_returns in Hone as [Hnull _]. congruence.
  - destruct (IH now (S idx) Hl) as [e ->]. simpl. eauto.
Qed.

Lemma normalize_from_lookup l : ∀ now idx out n t,
  normalize_from now idx l = Returns out → l !! n = Some t →
  ∃ r, out !! n = Some r ∧ normalize_one now (idx + n) t = Returns r.
Proof.
  induction l as [|t0 l IH]; intros now idx out n t; simpl; [done|].
  destruct (normalize_one now idx t0) as [r0|e] eqn:Hone; simpl; [|done].
  destruct (normalize_from now (S idx) l) as [rs|e] eqn:Hrest; simpl; [|done].
  intros [= <-]. destruct n as [|n]; simpl.
  - intros [= <-]. exists r0. by rewrite Nat.add_0_r.
  - intros Hn. destruct (IH now (S idx) rs n t Hrest Hn) as (r & Hr & Hone').
    exists r. split; [done|]. by replace (idx + S n)%nat with (S idx + n)%nat by lia.
Qed.

(** X16: a record without [createdAt] at position [n] gets the start of the
    run minus [n + 1] days, so records without dates come out one day
    apart, newest first. *)
Theorem normalizeTasks_fallback_createdAt now input out n t :
  normalizeTasks now input = Returns out →
  as_array input !! n = Some t →
  truthy (opt_get t "createdAt") = false →
  ∃ r, out !! n = Some r ∧
       opt_get r "createdAt" =
         JString (toISOString (now - (Z.of_nat n + 1) * day_ms)).
Proof.
  intros Hout Hn Hc.
  destruct (normalize_from_lookup _ now 0 out n t Hout Hn) as (r & Hr & Hone).
  exists r. split; [done|]. simpl in Hone.
  apply normalize_one_returns in Hone as (_ & c & Hcreated & ->).
  rewrite Hc in Hcreated. unfold TimeClip in Hcreated. simpl.
  destruct (_ <=? _)%Z; [|done]. by injection Hcreated as <-.
Qed.

(** X17: a truthy [completedAt] that is no date gets through the
    normalizer as it is and makes the sanitizer raise a [RangeError] on the
    normalized record. *)
Theorem bad_completedAt_raises_after_normalize now idx idx' seen t r :
  normalize_one now idx t = Returns r →
  truthy (opt_get t "completedAt") = true →
  Date_of (opt_get t "completedAt") = None →
  opt_get r "completedAt" = opt_get t "completedAt" ∧
  sanitize_one idx' seen r = Throws RangeError.
Proof.
  intros (_ & c & _ & ->)%normalize_one_returns Ht Hd. simpl. rewrite Ht.
  split; [done|]. unfold sanitize_one. simpl. rewrite Ht, Hd.
  destruct (negb (String.eqb (toISOString c) EmptyString)); simpl; [|done].
  by destruct (Date_of (JString (toISOString c))).
Qed.

(** X18: through both passes, a Done record without [completedAt] ends
    with the normalizer's date, one day after its [createdAt], read back and
    printed again by the sanitizer: the sanitizer's own rule for Done
    records is not reached. *)
Theorem done_record_through_both_passes now idx idx' seen t r a seen' :
  is_str "Done" (opt_get t "status") = true →
  truthy (opt_get t "completedAt") = false →
  normalize_one now idx t = Returns r →
  sanitize_one idx' seen r = Returns (a, seen') →
  ∃ c, opt_get r "createdAt" = JString (toISOString c) ∧
       opt_get r "completedAt" = JString (toISOString (c + day_ms)) ∧
       Task.status a = Done ∧
       (toISOString (c + day_ms) ≠ EmptyString →
        ∃ d, Date_of (JString (toISOString (c + day_ms))) = Some d ∧
             Task.completedAt a = Some (toISOString d)).
Proof.
  intros Hdone Hnone (_ & c & _ & ->)%normalize_one_returns.
  rewrite Hnone, Hdone. intros Hone. exists c. simpl.
  split; [done|]. split; [done|]. split.
  { apply sanitize_one_returns in Hone as (_ & _ & _ & -> & _).
    by apply sanitize_status_done. }
  intros Hne%String.eqb_neq. revert Hone. unfold sanitize_one. simpl. rewrite Hne. simpl.
  destruct (if negb (String.eqb (toISOString c) EmptyString) then _ else _) as [s|e];
    simpl; [|done].
  destruct (Date_of (JString (toISOString (c + day_ms)))) as [d|]; simpl; [|done].
  intros [= <- _]. by exists d.
Qed.

End NormalizeMore.

(** * Properties of the initial load *)

Section EffectMore.
Context `{Host} `{Runtime}.

(** X19: a load that is still mounted always ends the loading phase and
    leaves the undo candidate alone; it either reports an error and keeps
    the tasks, or keeps the error field and stores tasks that all have a
    positive duration and are well formed. *)
Theorem load_outcome now r st :
  loading (load now true r st) = false ∧
  lastDeleted (load now true r st) = lastDeleted st ∧
  ((tasks (load now true r st) = tasks st ∧ is_Some (error (load now true r st))) ∨
   (error (load now true r st) = error st ∧
    Forall positive (tasks (load now true r st)) ∧
    Forall well_formed (tasks (load now true r st)))).
Proof.
  unfold load. destruct (load_try now r) as [m|final] eqn:Htry; simpl.
  - split; [done|]. split; [done|]. left. split; [done|]. eauto.
  - split; [done|]. split; [done|]. right. split; [done|].
    revert Htry. unfold load_try. destruct r as [m|ok status b]; [done|].
    destruct (negb ok); [done|]. destruct b as [m|data]; [done|].
    destruct (normalizeTasks now data) as [normalized|e]; [|done].
    destruct (sanitizeTasks _) as [out|e] eqn:Hout; [|done].
    intros [= <-]. split.
    + by apply sanitize_from_returns in Hout as (_ & Hpos & _).
    + by apply sanitize_from_well_formed in Hout.
Qed.

(** X20: a body that is not an array, or is the empty array, is no error:
    it loads exactly what the seed data load. *)
Theorem load_without_records_uses_seed now status data :
  as_array data = [] →
  load_try now (Responded true status (Json data)) =
    match sanitizeTasks (JArray (generateSalesTasks 50)) with
    | Returns seeded => inr seeded
    | Throws e => inl (Some (exn_message e))
    end.
Proof.
  intros Hdata. unfold load_try, normalizeTasks. simpl negb. cbv iota.
  rewrite Hdata. reflexivity.
Qed.

(** X21: a body with at least one record never falls back to the seed
    data, and when the load succeeds it stores one task per record. *)
Theorem load_one_task_per_record now status data final :
  as_array data ≠ [] →
  load_try now (Responded true status (Json data)) = inr final →
  length final = length (as_array data) ∧
  ∃ normalized, normalizeTasks now data = Returns normalized ∧
                sanitizeTasks (JArray normalized) = Returns final.
Proof.
  intros Hne. unfold load_try. simpl negb. cbv iota.
  destruct (normalizeTasks now data) as [normalized|e] eqn:Hnorm; [|done].
  apply normalizeTasks_returns_length in Hnorm as Hlen.
  destruct normalized as [|r rs].
  { destruct (as_array data); [done|]. simpl in Hlen. lia. }
  change (0 <? length (r :: rs))%nat with true. cbv iota.
  destruct (sanitizeTasks (JArray (r :: rs))) as [out|e] eqn:Hout; [|done].
  intros [= <-]. split; [|by exists (r :: rs)].
  apply sanitize_from_returns in Hout as (Hl & _). simpl as_array in Hl. lia.
Qed.

(** X22: one [null] or [undefined] record makes the whole load fail with
    the message of the exception; no task is stored. *)
Theorem load_nullish_record_fails now status data st :
  Exists (λ t, nullish t = true) (as_array data) →
  ∃ e, load now true (Responded true status (Json data)) st =
       mkState (tasks st) false (Some (exn_message e)) (lastDeleted st).
Proof.
  intros Hex. destruct (normalize_from_nullish _ now 0 Hex) as [e He].
  exists e. unfold load, load_try, normalizeTasks. simpl negb. cbv iota.
  by rewrite He.
Qed.

Lemma run_call_flags c st :
  loading (run_call c st) = loading st ∧ error (run_call c st) = error st.
Proof.
  destruct c; simpl; try done. unfold undoDelete. by destruct (lastDeleted st).
Qed.

Lemma run_snoc h es e : run h (es ++ [e]) = step (run h es) e.
Proof. unfold run. by rewrite fold_left_app. Qed.

(** X23: whatever happens to a hook, its fetch is started at most once:
    after the first effect run the guard stops every later one. *)
Theorem fetch_started_at_most_once es :
  (length (mounted (run initial_hook es)) ≤ 1)%nat ∧
  (fetchedRef (run initial_hook es) = true ↔
   length (mounted (run initial_hook es)) = 1%nat).
Proof.
  induction es as [|e es IH] using rev_ind.
  { simpl. split; [lia|]. split; [done|]. intros [=]. }
  rewrite run_snoc. set (h := run initial_hook es) in *.
  destruct IH as [Hle Hiff]. destruct e as [|k|k now r|c]; simpl.
  - destruct (fetchedRef h) eqn:Hf; [rewrite ?Hf; split; assumption|].
    simpl. rewrite length_app. simpl.
    assert (length (mounted h) = 0%nat) as ->.
    { destruct (length (mounted h)) as [|[|n]]; [done| |lia].
      assert (false = true) by (by apply Hiff). done. }
    by split.
  - by rewrite length_insert.
  - by destruct (mounted h !! k).
  - done.
Qed.

(** X24: when the first effect run is cleaned up before its fetch has
    settled, nothing that follows ends the loading phase: the settled fetch
    is discarded and a later effect run starts no new one. *)
Theorem cleaned_up_load_never_delivers es :
  loading (store (run initial_hook (RunEffect :: Cleanup 0 :: es))) = true ∧
  error (store (run initial_hook (RunEffect :: Cleanup 0 :: es))) = None.
Proof.
  assert (fetchedRef (run initial_hook (RunEffect :: Cleanup 0 :: es)) = true ∧
          mounted (run initial_hook (RunEffect :: Cleanup 0 :: es)) = [false] ∧
          loading (store (run initial_hook (RunEffect :: Cleanup 0 :: es))) = true ∧
          error (store (run initial_hook (RunEffect :: Cleanup 0 :: es))) = None)
    as (_ & _ & Hl & He); [|done].
  induction es as [|e es IH] using rev_ind; [done|].
  change (RunEffect :: Cleanup 0 :: es ++ [e]) with
    ((RunEffect :: Cleanup 0 :: es) ++ [e]).
  rewrite run_snoc. set (h := run initial_hook (RunEffect :: Cleanup 0 :: es)) in *.
  destruct IH as (Hf & Hm & Hl & He). destruct e as [|k|k now r|c]; simpl.
  - by rewrite Hf.
  - rewrite Hm. by destruct k as [|k].
  - rewrite Hm. destruct k as [|[|k]]; simpl; done.
  - by destruct (run_call_flags c (store h)) as [-> ->].
Qed.

End EffectMore.

(** * The further properties on the example platform *)

Lemma sanitizeTasks_well_formed_witness :
  Forall well_formed
    [sanitized_id "a" "1"; sanitized_id "b" "2"; sanitized_id "a-k3j2x9" "3"].
Proof.
  apply (@sanitizeTasks_well_formed demo_host raw_repeat).
  vm_compute. reflexivity.
Defined.

Lemma sanitizeTasks_keeps_ids_witness :
  map Task.id [sanitized_id "a" "1"; sanitized_id "b" "2"] = ["a"; "b"] ∧
  unique_ids [sanitized_id "a" "1"; sanitized_id "b" "2"].
Proof.
  apply (@sanitizeTasks_keeps_ids demo_host raw_pair ["a"; "b"]).
  - reflexivity.
  - apply NoDup_cons. split.
    + intros [Heq|[]%elem_of_nil]%elem_of_cons. discriminate.
    + apply NoDup_singleton.
  - vm_compute. reflexivity.
Defined.

Lemma sanitizeTasks_returns_without_dates_witness :
  ∃ out, @sanitizeTasks demo_host raw_mixed = Returns out ∧ length out = 4%nat.
Proof.
  apply (@sanitizeTasks_returns_without_dates demo_host raw_mixed).
  repeat constructor.
Defined.

Lemma normalizeTasks_returns_witness :
  Forall2 normalized_from [raw_done] [normalized_done] ∧
  length [normalized_done] = length [raw_done].
Proof.
  apply (@normalizeTasks_returns demo_host demo_now (JArray [raw_done])).
  vm_compute. reflexivity.
Defined.

Lemma normalizeTasks_fallback_createdAt_witness :
  ∃ r, [normalized_id "a" "2023-11-13T22:13:20.000Z";
        normalized_id "b" "2023-11-12T22:13:20.000Z"] !! 1%nat = Some r ∧
       opt_get r "createdAt" =
         JString (demo_toISOString (demo_now - (Z.of_nat 1 + 1) * @day_ms)).
Proof.
  apply (@normalizeTasks_fallback_createdAt demo_host demo_now raw_pair _ 1 (raw_id "b")).
  - vm_compute. reflexivity.
  - reflexivity.
  - reflexivity.
Defined.

Lemma bad_completedAt_raises_after_normalize_witness :
  opt_get normalized_soon "completedAt" = opt_get raw_soon "completedAt" ∧
  @sanitize_one demo_host 0 ∅ normalized_soon = Throws RangeError.
Proof.
  apply (@bad_completedAt_raises_after_normalize demo_host demo_now 0 0 ∅ raw_soon).
  - vm_compute. reflexivity.
  - reflexivity.
  - reflexivity.
Defined.

Lemma done_record_through_both_passes_witness :
  ∃ c, opt_get normalized_done "createdAt" = JString (demo_toISOString c) ∧
       opt_get normalized_done "completedAt" = JString (demo_toISOString (c + @day_ms)) ∧
       Task.status sanitized_done = Done ∧
       (demo_toISOString (c + @day_ms) ≠ EmptyString →
        ∃ d, demo_Date_of (JString (demo_toISOString (c + @day_ms))) = Some d ∧
             Task.completedAt sanitized_done = Some (demo_toISOString d)).
Proof.
  apply (@done_record_through_both_passes demo_host demo_now 0 0 ∅ raw_done
           normalized_done sanitized_done ({["a"]} ∪ ∅)).
  - reflexivity.
  - reflexivity.
  - vm_compute. reflexivity.
  - vm_compute. reflexivity.
Defined.

Lemma load_without_records_uses_seed_witness :
  @load_try demo_host demo_runtime demo_now (Responded true 200 (Json JNull)) =
    match @sanitizeTasks demo_host (JArray (@generateSalesTasks demo_runtime 50)) with
    | Returns seeded => inr seeded
    | Throws e => inl (Some (@exn_message demo_runtime e))
    end.
Proof.
  apply (@load_without_records_uses_seed demo_host demo_runtime demo_now 200 JNull).
  reflexivity.
Defined.

Lemma load_one_task_per_record_witness :
  length [sanitized_done] = length [raw_done] ∧
  ∃ normalized,
    @normalizeTasks demo_host demo_now (JArray [raw_done]) = Returns normalized ∧
    @sanitizeTasks demo_host (JArray normalized) = Returns [sanitized_done].
Proof.
  apply (@load_one_task_per_record demo_host demo_runtime demo_now 200
           (JArray [raw_done]) [sanitized_done]).
  - discriminate.
  - vm_compute. reflexivity.
Defined.

Lemma load_nullish_record_fails_witness :
  ∃ e, @load demo_host demo_runtime demo_now true
         (Responded true 200 (Json (JArray [raw_done; JNull]))) st_two =
       mkState (tasks st_two) false (Some (@exn_message demo_runtime e)) None.
Proof.
  apply (@load_nullish_record_fails demo_host demo_runtime demo_now 200
           (JArray [raw_done; JNull]) st_two).
  apply Exists_cons_tl, Exists_cons_hd. reflexivity.
Defined.

(** On the example platform the whole hook runs as one would expect: one
    effect run, the fetch settles, three user calls. *)
Example hook_session :
  store (@run demo_host demo_runtime initial_hook
           [RunEffect;
            Settle 0 demo_now (Responded true 200 (Json (JArray [raw_done])));
            RunEffect;
            Call (Add "6f1c0a52-3b7e-4c1d-9a50-2f4e8d7b9c11" "2024-01-01T00:00:00.000Z"
                      call_client);
            Call (Delete "a");
            Call Undo]) =
  mkState
    [Task.mk "6f1c0a52-3b7e-4c1d-9a50-2f4e8d7b9c11" "Call client" 100 1 High Todo None
             "2024-01-01T00:00:00.000Z" None;
     sanitized_done]
    false None None.
Proof. vm_compute. reflexivity. Qed.

Example hook_failed_response :
  store (@run demo_host demo_runtime initial_hook
           [RunEffect; Settle 0 demo_now (Responded false 404 (BadJson None))]) =
  mkState [] false (Some "Failed to load tasks.json (404)") None.
Proof. vm_compute. reflexivity. Qed.
